(** * fence-api-backend: the access-code validator

    A shallow embedding of [netlify/functions/validate-code.js] (the
    appointment-based variant) and the properties its specification states
    about it.

    Conventions of the embedding.
    - A JavaScript string is the list of its UTF-16 code units ([jsstring]);
      literals of the source are written [js "..."], which decodes the UTF-8
      text of the literal into code units.
    - A JavaScript number is modelled on the integers: [number] is
      [option Z], with [None] standing for [NaN].  Epoch-millisecond
      timestamps, HTTP statuses and clock fields are all integral; fractional
      and infinite doubles are outside the embedding.
    - Values that come out of [JSON.parse] are [JsVal]s.
    - Everything the function reads from its environment (process
      environment, clock, network, the engine's [JSON.parse] and the
      implementation-defined part of [Date.parse]) is a field of [Host].
    - Effects (clock reads, outbound requests, [console.error]) are threaded
      through a state-and-exception monad [M]. *)

From Stdlib Require Import String Ascii DecimalString ZArith Bool List Lia.
Import ListNotations.

Set Warnings "-register-all".
Open Scope Z_scope.

(* ===================================================================== *)
(** ** JavaScript strings *)
(* ===================================================================== *)

Module JsString.

Definition jsstring := list Z.

(** Decoder of the UTF-8 bytes of a source literal into UTF-16 code units
    (one-, two- and three-byte sequences: the Basic Multilingual Plane). *)
Fixpoint utf8 (bs : list Z) : jsstring :=
  match bs with
  | [] => []
  | b0 :: r0 =>
    if b0 <? 128 then b0 :: utf8 r0
    else if b0 <? 224 then
      match r0 with
      | b1 :: r1 => ((b0 - 192) * 64 + (b1 - 128)) :: utf8 r1
      | [] => [b0]
      end
    else
      match r0 with
      | b1 :: b2 :: r2 =>
        ((b0 - 224) * 4096 + (b1 - 128) * 64 + (b2 - 128)) :: utf8 r2
      | _ => b0 :: r0
      end
  end.

Definition js (s : string) : jsstring :=
  utf8 (map (fun a => Z.of_N (N_of_ascii a)) (list_ascii_of_string s)).
Arguments js s%_string.

Fixpoint str_eqb (a b : jsstring) : bool :=
  match a, b with
  | [], [] => true
  | x :: a', y :: b' => (x =? y) && str_eqb a' b'
  | _, _ => false
  end.

Definition isEmpty (s : jsstring) : bool :=
  match s with [] => true | _ => false end.

(** [s.endsWith(t)]: the last [length t] code units of [s] are [t]. *)
Definition endsWith (s t : jsstring) : bool :=
  (length t <=? length s)%nat && str_eqb (skipn (length s - length t) s) t.

(** ECMAScript WhiteSpace and LineTerminator code points, the characters
    [String.prototype.trim] strips. *)
Definition isWhiteSpace (c : Z) : bool :=
  ((9 <=? c) && (c <=? 13)) || (c =? 32) || (c =? 160) || (c =? 5760)
  || ((8192 <=? c) && (c <=? 8202)) || (c =? 8232) || (c =? 8233)
  || (c =? 8239) || (c =? 8287) || (c =? 12288) || (c =? 65279).

Fixpoint trimStart (s : jsstring) : jsstring :=
  match s with
  | c :: r => if isWhiteSpace c then trimStart r else s
  | [] => []
  end.

Definition trimEnd (s : jsstring) : jsstring := rev (trimStart (rev s)).

Definition trim (s : jsstring) : jsstring := trimEnd (trimStart s).

(** [s.padStart(n, p)] for a one-unit pad string [p]. *)
Definition padStart (s : jsstring) (n : nat) (p : Z) : jsstring :=
  repeat p (n - length s) ++ s.

Definition isDigit (c : Z) : bool := (48 <=? c) && (c <=? 57).

Definition isAlnum (c : Z) : bool :=
  isDigit c || ((65 <=? c) && (c <=? 90)) || ((97 <=? c) && (c <=? 122)).

Definition digitVal (c : Z) : Z := c - 48.

(** [parseInt] on a string of decimal digits. *)
Definition parseInt (s : jsstring) : Z :=
  fold_left (fun acc c => 10 * acc + digitVal c) s 0.

End JsString.
Import JsString.

(* ===================================================================== *)
(** ** JavaScript numbers and values *)
(* ===================================================================== *)

Definition number := option Z.
Definition NaN : number := None.

Definition isNaN (n : number) : bool :=
  match n with None => true | Some _ => false end.

Definition num_add (a b : number) : number :=
  match a, b with Some x, Some y => Some (x + y) | _, _ => None end.

Definition num_sub (a b : number) : number :=
  match a, b with Some x, Some y => Some (x - y) | _, _ => None end.

(** [Number.prototype.toString] on an integral number below 10^21 in
    magnitude (or on [NaN]): the decimal digits, with a minus sign. *)
Definition Z_toString (z : Z) : jsstring :=
  js (NilZero.string_of_int (Z.to_int z)).

Definition Number_toString (n : number) : jsstring :=
  match n with
  | Some z => Z_toString z
  | None => js "NaN"
  end.

(** The values [JSON.parse] produces, together with [undefined], which
    property access on them can yield. *)
Inductive JsVal :=
| JUndefined
| JNull
| JBool (b : bool)
| JNum (z : Z)
| JStr (s : jsstring)
| JArr (elems : list JsVal)
| JObj (props : list (jsstring * JsVal)).

Definition truthy (v : JsVal) : bool :=
  match v with
  | JUndefined | JNull => false
  | JBool b => b
  | JNum z => negb (z =? 0)
  | JStr s => negb (isEmpty s)
  | JArr _ | JObj _ => true
  end.

(** [a || b] *)
Definition js_or (a b : JsVal) : JsVal := if truthy a then a else b.

(** [a ?? b] *)
Definition js_nullish (a b : JsVal) : JsVal :=
  match a with
  | JUndefined | JNull => b
  | _ => a
  end.

Fixpoint lookupProp (props : list (jsstring * JsVal)) (k : jsstring) : JsVal :=
  match props with
  | [] => JUndefined
  | (k', v) :: rest => if str_eqb k' k then v else lookupProp rest k
  end.

(** Exceptions.  [Error] is what this program throws itself; the others are
    thrown by the engine, with an engine-defined message. *)
Inductive Exn :=
| Error (message : jsstring)
| TypeError
| SyntaxError
| FetchError.

Inductive Outcome (A : Type) :=
| Ok (a : A)
| Throw (e : Exn).
Arguments Ok {A} a.
Arguments Throw {A} e.

(** [v.k] for a data key [k] (none of the keys the program reads is a
    built-in property of strings, arrays or [Object.prototype]). *)
Definition getProp (v : JsVal) (k : jsstring) : Outcome JsVal :=
  match v with
  | JUndefined | JNull => Throw TypeError
  | JObj props => Ok (lookupProp props k)
  | _ => Ok JUndefined
  end.

Definition hasOwnProperty (props : list (jsstring * JsVal)) (k : jsstring) : bool :=
  existsb (fun kv => str_eqb (fst kv) k) props.

(** [ToString] of a value, as [ToPrimitive] of an array or object needs it.
    [Array.prototype.toString] joins the elements with commas, writing
    nothing for [null] and [undefined].  A plain object converts through
    [Object.prototype.toString], unless it has a [toString] property of its
    own: a parsed value is never callable, so that property hides the
    method and the conversion throws. *)
Fixpoint ToString (v : JsVal) : Outcome jsstring :=
  match v with
  | JUndefined => Ok (js "undefined")
  | JNull => Ok (js "null")
  | JBool true => Ok (js "true")
  | JBool false => Ok (js "false")
  | JNum z => Ok (Z_toString z)
  | JStr s => Ok s
  | JObj props =>
    if hasOwnProperty props (js "toString") then Throw TypeError
    else Ok (js "[object Object]")
  | JArr elems =>
    (fix join (l : list JsVal) : Outcome jsstring :=
       match l with
       | [] => Ok []
       | x :: r =>
         match (match x with
                | JUndefined | JNull => Ok []
                | _ => ToString x
                end) with
         | Throw e => Throw e
         | Ok sx =>
           match r with
           | [] => Ok sx
           | _ =>
             match join r with
             | Throw e => Throw e
             | Ok sr => Ok (sx ++ js "," ++ sr)
             end
           end
         end
       end) elems
  end.

(* ===================================================================== *)
(** ** Dates: ECMAScript time values *)
(* ===================================================================== *)

Module JsDate.

Definition msPerDay : Z := 86400000.
Definition msPerHour : Z := 3600000.
Definition msPerMinute : Z := 60000.

(** The largest magnitude of a time value (ECMAScript [TimeClip]). *)
Definition maxTime : Z := 8640000000000000.

Definition TimeClip (t : number) : number :=
  match t with
  | Some v => if Z.abs v <=? maxTime then Some v else NaN
  | None => NaN
  end.

(** A [Date] object is its time value; [NaN] is the invalid date. *)
Definition Date := number.

Definition getTime (d : Date) : number := d.

Definition Day (t : Z) : Z := t / msPerDay.
Definition HourFromTime (t : Z) : Z := (t / msPerHour) mod 24.
Definition MinFromTime (t : Z) : Z := (t / msPerMinute) mod 60.

Definition getUTCHours (d : Date) : number := option_map HourFromTime d.
Definition getUTCMinutes (d : Date) : number := option_map MinFromTime d.

(** [d.setUTCHours(0, 0, 0, 0)]: the start of the UTC day of [d]. *)
Definition setUTCHours_0 (d : Date) : Date :=
  match d with
  | Some t => TimeClip (Some (Day t * msPerDay))
  | None => NaN
  end.

Definition DayFromYear (y : Z) : Z :=
  365 * (y - 1970) + (y - 1969) / 4 - (y - 1901) / 100 + (y - 1601) / 400.

Definition isLeapYear (y : Z) : bool :=
  (y mod 4 =? 0) && (negb (y mod 100 =? 0) || (y mod 400 =? 0)).

Definition daysInMonth (y m : Z) : Z :=
  match m with
  | 2 => if isLeapYear y then 29 else 28
  | 4 | 6 | 9 | 11 => 30
  | _ => 31
  end.

Definition daysBeforeMonth (y m : Z) : Z :=
  fold_left Z.add
    (map (daysInMonth y) (firstn (Z.to_nat (m - 1)) [1;2;3;4;5;6;7;8;9;10;11;12]))
    0.

Definition MakeDay (y m d : Z) : Z := DayFromYear y + daysBeforeMonth y m + (d - 1).

(** *** The ECMAScript date-time string format

    [parseIsoUtc] recognises the strings of the format whose meaning does not
    depend on the engine or on its time zone: the date-only forms [YYYY],
    [YYYY-MM], [YYYY-MM-DD] (UTC) and the date-time forms [THH:mm],
    [THH:mm:ss], [THH:mm:ss.sss] followed by [Z] or by [±HH:mm], all fields
    in range.  Every other string is left to the engine. *)

Definition takeDigits (n : nat) (s : jsstring) : option (Z * jsstring) :=
  let d := firstn n s in
  if (length d =? n)%nat && forallb isDigit d
  then Some (parseInt d, skipn n s)
  else None.

Definition startsWithChar (c : Z) (s : jsstring) : bool :=
  match s with
  | x :: _ => x =? c
  | [] => false
  end.

Definition inRange (lo v hi : Z) : bool := (lo <=? v) && (v <=? hi).

Definition parseIsoDate (s : jsstring) : option (Z * jsstring) :=
  match takeDigits 4 s with
  | None => None
  | Some (y, r) =>
    if startsWithChar 45 r then
      match takeDigits 2 (tl r) with
      | None => None
      | Some (m, r) =>
        if negb (inRange 1 m 12) then None
        else if startsWithChar 45 r then
          match takeDigits 2 (tl r) with
          | None => None
          | Some (d, r) =>
            if inRange 1 d (daysInMonth y m) then Some (MakeDay y m d, r)
            else None
          end
        else Some (MakeDay y m 1, r)
      end
    else Some (MakeDay y 1 1, r)
  end.

(** [HH:mm], [HH:mm:ss] or [HH:mm:ss.sss]: milliseconds within the day. *)
Definition parseIsoTime (s : jsstring) : option (Z * jsstring) :=
  match takeDigits 2 s with
  | None => None
  | Some (hh, r) =>
    if negb (inRange 0 hh 23 && startsWithChar 58 r) then None
    else
      match takeDigits 2 (tl r) with
      | None => None
      | Some (mi, r) =>
        if negb (inRange 0 mi 59) then None
        else
          let base := hh * msPerHour + mi * msPerMinute in
          if startsWithChar 58 r then
            match takeDigits 2 (tl r) with
            | None => None
            | Some (ss, r) =>
              if negb (inRange 0 ss 59) then None
              else if startsWithChar 46 r then
                match takeDigits 3 (tl r) with
                | None => None
                | Some (ms, r) => Some (base + ss * 1000 + ms, r)
                end
              else Some (base + ss * 1000, r)
            end
          else Some (base, r)
      end
  end.

(** [Z] or [±HH:mm] up to the end of the string: the offset in
    milliseconds. *)
Definition parseIsoOffset (s : jsstring) : option Z :=
  match s with
  | [90] => Some 0
  | sg :: r =>
    if (sg =? 43) || (sg =? 45) then
      match takeDigits 2 r with
      | None => None
      | Some (hh, r) =>
        if negb (inRange 0 hh 23 && startsWithChar 58 r) then None
        else
          match takeDigits 2 (tl r) with
          | Some (mi, []) =>
            if inRange 0 mi 59
            then Some ((if sg =? 43 then 1 else -1) * (hh * msPerHour + mi * msPerMinute))
            else None
          | _ => None
          end
      end
    else None
  | [] => None
  end.

Definition parseIsoUtc (s : jsstring) : number :=
  match parseIsoDate s with
  | None => None
  | Some (day, []) => Some (day * msPerDay)
  | Some (day, t :: r) =>
    if t =? 84 then
      match parseIsoTime r with
      | None => None
      | Some (ms, r) =>
        match parseIsoOffset r with
        | None => None
        | Some off => Some (day * msPerDay + ms - off)
        end
      end
    else None
  end.

End JsDate.
Import JsDate.

(* ===================================================================== *)
(** ** The host: environment, clock, network, engine *)
(* ===================================================================== *)

(** The outbound request of the lookup: the URL and its query parameters,
    and the headers [authHeaders] builds. *)
Record Request := {
  req_url : jsstring;
  req_locationId : jsstring;
  req_startDate : jsstring;
  req_endDate : jsstring;
  req_Authorization : jsstring;
  req_ContentType : jsstring
}.

(** What the program observes of a [fetch] response. *)
Record Response := {
  status : Z;
  bodyText : jsstring
}.

Record Host := {
  (** [process.env]: a variable is unset or holds a string. *)
  GHL_API_KEY : option jsstring;
  GHL_LOCATION_ID : option jsstring;
  APPOINTMENT_TZ : option jsstring;
  (** The value of the n-th call of [Date.now()]. *)
  clock : nat -> Z;
  (** The scheduling service; [None] when [fetch] itself rejects. *)
  upstream : Request -> option Response;
  (** The engine's [JSON.parse]; [None] when it throws a [SyntaxError]. *)
  JSON_parse : jsstring -> option JsVal;
  (** What the engine's [Date.parse] makes of a string outside
      [parseIsoUtc]: local-time forms and implementation-defined formats. *)
  Date_parse_other : jsstring -> number
}.

(** The effects of one invocation. *)
Record State := {
  ticks : nat;              (* calls of [Date.now()] so far *)
  sent : list Request;      (* outbound requests, latest first *)
  logged : list Exn         (* errors written with [console.error] *)
}.

Definition initial : State := {| ticks := 0; sent := []; logged := [] |}.

Definition M (A : Type) := State -> Outcome A * State.

Definition ret {A} (a : A) : M A := fun st => (Ok a, st).

Definition throw {A} (e : Exn) : M A := fun st => (Throw e, st).

Definition bind {A B} (c : M A) (k : A -> M B) : M B :=
  fun st =>
    match c st with
    | (Ok a, st') => k a st'
    | (Throw e, st') => (Throw e, st')
    end.

Definition lift {A} (o : Outcome A) : M A := fun st => (o, st).

Declare Scope js_scope.
Delimit Scope js_scope with js.
Notation "x <- c ;; k" := (bind c (fun x => k))
  (at level 61, c at next level, right associativity) : js_scope.
Open Scope js_scope.

(** [try { c } catch (err) { handler }] *)
Definition try_catch {A} (c : M A) (handler : Exn -> M A) : M A :=
  fun st =>
    match c st with
    | (Ok a, st') => (Ok a, st')
    | (Throw e, st') => handler e st'
    end.

Definition console_error (e : Exn) : M unit :=
  fun st => (Ok tt, {| ticks := ticks st; sent := sent st; logged := e :: logged st |}).

(** An optional string in a boolean context ([!v], [v || d]): [undefined]
    and the empty string are falsy. *)
Definition nonEmpty (v : option jsstring) : option jsstring :=
  match v with
  | Some (c :: r) => Some (c :: r)
  | _ => None
  end.

(** [v || d] *)
Definition str_or (v : option jsstring) (d : jsstring) : jsstring :=
  match nonEmpty v with
  | Some s => s
  | None => d
  end.

(* ===================================================================== *)
(** ** The program *)
(* ===================================================================== *)

Definition GHL_API_BASE : jsstring := js "https://rest.gohighlevel.com".

Definition CORS_HEADERS : list (jsstring * jsstring) :=
  [ (js "Access-Control-Allow-Origin", js "*");
    (js "Access-Control-Allow-Methods", js "POST, OPTIONS");
    (js "Access-Control-Allow-Headers", js "Content-Type");
    (js "Content-Type", js "application/json") ].

Definition WINDOW_BEFORE_MS : Z := 2 * 60 * 60 * 1000.
Definition WINDOW_AFTER_MS : Z := 4 * 60 * 60 * 1000.

(** [/^([+-])(\d{2}):(\d{2})$/] on [tzStr || "+00:00"]. *)
Definition parseTzOffsetMs (tzStr : option jsstring) : Z :=
  match str_or tzStr (js "+00:00") with
  | [sg; h1; h2; colon; m1; m2] =>
    if ((sg =? 43) || (sg =? 45)) && isDigit h1 && isDigit h2
       && (colon =? 58) && isDigit m1 && isDigit m2
    then
      let sign := if sg =? 43 then 1 else -1 in
      sign * (parseInt [h1; h2] * 60 + parseInt [m1; m2]) * 60 * 1000
    else 0
  | _ => 0
  end.

Definition isWithinWindow (appointmentStartMs nowMs : Z) : bool :=
  (nowMs >=? appointmentStartMs - WINDOW_BEFORE_MS)
  && (nowMs <=? appointmentStartMs + WINDOW_AFTER_MS).

Definition formatLocalTime (epochMs tzOffsetMs : Z) : jsstring :=
  let localDate : Date := TimeClip (Some (epochMs + tzOffsetMs)) in
  let h := getUTCHours localDate in
  let m := padStart (Number_toString (getUTCMinutes localDate)) 2 48 in
  let period :=
    match h with
    | Some hv => if hv >=? 12 then js "PM" else js "AM"
    | None => js "AM"
    end in
  let display : number :=
    match h with
    | Some hv => if Z.rem hv 12 =? 0 then Some 12 else Some (Z.rem hv 12)
    | None => Some 12
    end in
  Number_toString display ++ js ":" ++ m ++ js " " ++ period.

Record Verdict := {
  valid : bool;
  error : option jsstring
}.

Definition granted : Verdict := {| valid := true; error := None |}.
Definition denied (reason : jsstring) : Verdict :=
  {| valid := false; error := Some reason |}.

Definition invalidFormat : Verdict :=
  denied (js "Invalid code format. Expected 4 alphanumeric characters.").
Definition noAppointment : Verdict :=
  denied (js "No appointment found for today with this code.").
Definition ambiguous : Verdict :=
  denied (js "Ambiguous code — multiple appointments match. Please contact us.").
Definition unreadableStart : Verdict :=
  denied (js "Could not read appointment start time.").
Definition outsideWindow (apptTimeStr : jsstring) : Verdict :=
  denied (js "Appointment is at " ++ apptTimeStr
          ++ js " but you are outside the access "
          ++ js "window (2 hours before → 4 hours after appointment time).").

(** [/^[A-Za-z0-9]{4}$/.test(code)] *)
Definition testCodeFormat (code : jsstring) : bool :=
  match code with
  | [a; b; c; d] => isAlnum a && isAlnum b && isAlnum c && isAlnum d
  | _ => false
  end.

(** [arr.filter(f)] with a callback that may throw. *)
Fixpoint Array_filter (f : JsVal -> Outcome bool) (arr : list JsVal)
  : Outcome (list JsVal) :=
  match arr with
  | [] => Ok []
  | x :: rest =>
    match f x with
    | Throw e => Throw e
    | Ok keep =>
      match Array_filter f rest with
      | Throw e => Throw e
      | Ok rest' => Ok (if keep then x :: rest' else rest')
      end
    end
  end.

(** The callback of the match step:
    [typeof appt.contactId === "string" && appt.contactId.endsWith(code)]. *)
Definition matchesCode (code : jsstring) (appt : JsVal) : Outcome bool :=
  match getProp appt (js "contactId") with
  | Throw e => Throw e
  | Ok (JStr contactId) => Ok (endsWith contactId code)
  | Ok _ => Ok false
  end.

(** [appointments.filter(...)]: only an array has the method. *)
Definition findMatches (appointments : JsVal) (code : jsstring)
  : Outcome (list JsVal) :=
  match appointments with
  | JArr elems => Array_filter (matchesCode code) elems
  | _ => Throw TypeError
  end.

Section Program.

Variable host : Host.

Definition Date_now : M Z :=
  fun st =>
    (Ok (clock host (ticks st)),
     {| ticks := S (ticks st); sent := sent st; logged := logged st |}).

Definition fetch (req : Request) : M Response :=
  fun st =>
    let st' := {| ticks := ticks st; sent := req :: sent st; logged := logged st |} in
    match upstream host req with
    | Some resp => (Ok resp, st')
    | None => (Throw FetchError, st')
    end.

Definition response_ok (r : Response) : bool :=
  (200 <=? status r) && (status r <=? 299).

Definition response_json (r : Response) : M JsVal :=
  match JSON_parse host (bodyText r) with
  | Some v => ret v
  | None => throw SyntaxError
  end.

(** [Date.parse] *)
Definition Date_parse (s : jsstring) : number :=
  match parseIsoUtc s with
  | Some t => Some t
  | None => Date_parse_other host s
  end.

(** [new Date(value)] for a value that is not a [Date]: a string (or an
    array or object, through [ToPrimitive], which may throw) is parsed,
    anything else goes through [ToNumber]. *)
Definition Date_new (value : JsVal) : Outcome Date :=
  match value with
  | JStr s => Ok (TimeClip (Date_parse s))
  | JArr _ | JObj _ =>
    match ToString value with
    | Throw e => Throw e
    | Ok s => Ok (TimeClip (Date_parse s))
    end
  | JNum z => Ok (TimeClip (Some z))
  | JBool b => Ok (TimeClip (Some (if b then 1 else 0)))
  | JNull => Ok (TimeClip (Some 0))
  | JUndefined => Ok NaN
  end.

(** [{ Authorization: `Bearer ${apiKey}`, "Content-Type": ... }] *)
Definition authHeaders : M (jsstring * jsstring) :=
  match nonEmpty (GHL_API_KEY host) with
  | None => throw (Error (js "GHL_API_KEY environment variable is not set."))
  | Some apiKey => ret (js "Bearer " ++ apiKey, js "application/json")
  end.

(** The bounds of today in the configured zone, as the two query
    parameters carry them. *)
Definition todayBounds (nowUtcMs tzOffsetMs : Z) : number * number :=
  let localNow : Date := TimeClip (Some (nowUtcMs + tzOffsetMs)) in
  let localNow := setUTCHours_0 localNow in
  let startMs := num_sub (getTime localNow) (Some tzOffsetMs) in
  let endMs := num_sub (num_add startMs (Some (24 * 60 * 60 * 1000))) (Some 1) in
  (startMs, endMs).

Definition fetchTodaysAppointments : M JsVal :=
  match nonEmpty (GHL_LOCATION_ID host) with
  | None => throw (Error (js "GHL_LOCATION_ID environment variable is not set."))
  | Some locationId =>
    let tzOffsetMs := parseTzOffsetMs (APPOINTMENT_TZ host) in
    nowUtcMs <- Date_now ;;
    let '(startMs, endMs) := todayBounds nowUtcMs tzOffsetMs in
    headers <- authHeaders ;;
    response <- fetch {| req_url := GHL_API_BASE ++ js "/v1/appointments/";
                         req_locationId := locationId;
                         req_startDate := Number_toString startMs;
                         req_endDate := Number_toString endMs;
                         req_Authorization := fst headers;
                         req_ContentType := snd headers |} ;;
    if negb (response_ok response) then
      let body := bodyText response in
      throw (Error (js "GHL appointments API returned "
                    ++ Z_toString (status response) ++ js ": " ++ body))
    else
      data <- response_json response ;;
      appointments <- lift (getProp data (js "appointments")) ;;
      ret (js_nullish appointments (JArr []))
  end.

(** [typeof v === "number" ? v : new Date(v).getTime()] *)
Definition resolveStart (startTime : JsVal) : Outcome number :=
  match startTime with
  | JNum z => Ok (Some z)
  | _ =>
    match Date_new startTime with
    | Throw e => Throw e
    | Ok date => Ok (getTime date)
    end
  end.

Definition validateCode (code : jsstring) : M Verdict :=
  if negb (testCodeFormat code) then ret invalidFormat
  else
    appointments <- fetchTodaysAppointments ;;
    matches <- lift (findMatches appointments code) ;;
    if (length matches =? 0)%nat then ret noAppointment
    else if (1 <? length matches)%nat then ret ambiguous
    else
      let appt := nth 0 matches JUndefined in
      startTime <- lift (getProp appt (js "startTime")) ;;
      startMs <- lift (resolveStart startTime) ;;
      match startMs with
      | None => ret unreadableStart
      | Some startMs =>
        nowMs <- Date_now ;;
        if isWithinWindow startMs nowMs then ret granted
        else
          let tzOffsetMs := parseTzOffsetMs (APPOINTMENT_TZ host) in
          let apptTimeStr := formatLocalTime startMs tzOffsetMs in
          ret (outsideWindow apptTimeStr)
      end.

(** *** The Netlify handler *)

Record Event := {
  httpMethod : jsstring;
  body : option jsstring
}.

Inductive ResponseBody :=
| EmptyBody
| JsonBody (v : Verdict).

Record HttpResponse := {
  statusCode : Z;
  headers : list (jsstring * jsstring);
  responseBody : ResponseBody
}.

Definition respond (code : Z) (b : ResponseBody) : HttpResponse :=
  {| statusCode := code; headers := CORS_HEADERS; responseBody := b |}.

(** The first [try] block:
    [JSON.parse(event.body || "{}")] and
    [(body.contactId || body.code || "").trim()]. *)
Definition readCode (event : Event) : Outcome jsstring :=
  match JSON_parse host (str_or (body event) (js "{}")) with
  | None => Throw SyntaxError
  | Some parsed =>
    match getProp parsed (js "contactId") with
    | Throw e => Throw e
    | Ok contactId =>
      let first :=
        if truthy contactId then Ok contactId
        else
          match getProp parsed (js "code") with
          | Throw e => Throw e
          | Ok code => Ok (js_or code (JStr (js "")))
          end in
      match first with
      | Throw e => Throw e
      | Ok (JStr s) => Ok (trim s)
      | Ok _ => Throw TypeError
      end
    end
  end.

Definition handler (event : Event) : M HttpResponse :=
  if str_eqb (httpMethod event) (js "OPTIONS")
  then ret (respond 204 EmptyBody)
  else if negb (str_eqb (httpMethod event) (js "POST"))
  then ret (respond 405 (JsonBody (denied (js "Method not allowed."))))
  else
    match readCode event with
    | Throw _ =>
      ret (respond 400 (JsonBody (denied (js "Invalid JSON body."))))
    | Ok code =>
      if isEmpty code
      then ret (respond 400 (JsonBody (denied (js "contactId is required."))))
      else
        try_catch
          (result <- validateCode code ;;
           ret (respond 200 (JsonBody result)))
          (fun err =>
             _ <- console_error err ;;
             ret (respond 500
                    (JsonBody (denied (js "Internal server error. Please try again.")))))
    end.

End Program.

(* ===================================================================== *)
(** ** Vocabulary of the specification *)
(* ===================================================================== *)

(** The spec's format of an access code: exactly four characters, each in
    [A-Za-z0-9]. *)
Definition alnumChar (c : Z) : Prop :=
  48 <= c <= 57 \/ 65 <= c <= 90 \/ 97 <= c <= 122.

Definition wellFormedCode (code : jsstring) : Prop :=
  length code = 4%nat /\ Forall alnumChar code.

(** An appointment record of arbitrary shape: any list of properties. *)
Definition Record_ := list (jsstring * JsVal).

(** The spec's match relation: the contact identifier is a string that ends
    with the code. *)
Definition contactIdEndsWith (code : jsstring) (r : Record_) : Prop :=
  exists contactId prefix,
    lookupProp r (js "contactId") = JStr contactId /\ contactId = prefix ++ code.

Definition selects (code : jsstring) (r : Record_) : bool :=
  match lookupProp r (js "contactId") with
  | JStr contactId => endsWith contactId code
  | _ => false
  end.

(** The state after one more call of [Date.now()]. *)
Definition tick (st : State) : State :=
  {| ticks := S (ticks st); sent := sent st; logged := logged st |}.

(** The verdict of the window check for start [s] at instant [t]. *)
Definition windowVerdict (host : Host) (s t : Z) : Verdict :=
  if isWithinWindow s t then granted
  else outsideWindow (formatLocalTime s (parseTzOffsetMs (APPOINTMENT_TZ host))).

(** The request the lookup sends when it reads the clock at [nowUtcMs]. *)
Definition lookupRequest (host : Host) (locationId apiKey : jsstring)
    (nowUtcMs : Z) : Request :=
  let bounds := todayBounds nowUtcMs (parseTzOffsetMs (APPOINTMENT_TZ host)) in
  {| req_url := GHL_API_BASE ++ js "/v1/appointments/";
     req_locationId := locationId;
     req_startDate := Number_toString (fst bounds);
     req_endDate := Number_toString (snd bounds);
     req_Authorization := js "Bearer " ++ apiKey;
     req_ContentType := js "application/json" |}.

(** The state after the lookup has read the clock and sent [req]. *)
Definition afterRequest (st : State) (req : Request) : State :=
  {| ticks := S (ticks st); sent := req :: sent st; logged := logged st |}.

Definition upstreamError (resp : Response) : Exn :=
  Error (js "GHL appointments API returned "
         ++ Z_toString (status resp) ++ js ": " ++ bodyText resp).

Definition badRequest (reason : jsstring) : HttpResponse :=
  respond 400 (JsonBody (denied reason)).

(** The one response of the [catch] branch: a constant. *)
Definition internalError : HttpResponse :=
  respond 500 (JsonBody (denied (js "Internal server error. Please try again."))).

Definition logError (e : Exn) (st : State) : State :=
  {| ticks := ticks st; sent := sent st; logged := e :: logged st |}.

(** What the second [try] block makes of a run of [validateCode]. *)
Definition answer (run : Outcome Verdict * State) : Outcome HttpResponse * State :=
  match run with
  | (Ok result, st') => (Ok (respond 200 (JsonBody result)), st')
  | (Throw err, st') => (Ok internalError, logError err st')
  end.

(** The failures the claim names, each with the error thrown and the state
    it is thrown in: a missing location identifier (before anything else),
    a missing credential (after the clock is read, before any request), and
    an answer whose status is not 2xx. *)
Inductive LookupFailure (host : Host) (st : State) : Exn -> State -> Prop :=
| location_missing :
    nonEmpty (GHL_LOCATION_ID host) = None ->
    LookupFailure host st
      (Error (js "GHL_LOCATION_ID environment variable is not set.")) st
| credential_missing (locationId : jsstring) :
    nonEmpty (GHL_LOCATION_ID host) = Some locationId ->
    nonEmpty (GHL_API_KEY host) = None ->
    LookupFailure host st
      (Error (js "GHL_API_KEY environment variable is not set.")) (tick st)
| upstream_refused (locationId apiKey : jsstring) (resp : Response) :
    nonEmpty (GHL_LOCATION_ID host) = Some locationId ->
    nonEmpty (GHL_API_KEY host) = Some apiKey ->
    upstream host (lookupRequest host locationId apiKey (clock host (ticks st)))
    = Some resp ->
    response_ok resp = false ->
    LookupFailure host st (upstreamError resp)
      (afterRequest st (lookupRequest host locationId apiKey (clock host (ticks st)))).

(** A well-formed offset string [±HH:MM], with its sign and its two
    fields. *)
Inductive OffsetString : jsstring -> Z -> Z -> Z -> Prop :=
| offset_string (sg d1 d2 d3 d4 : Z) :
    sg = 43 \/ sg = 45 ->
    0 <= d1 <= 9 -> 0 <= d2 <= 9 -> 0 <= d3 <= 9 -> 0 <= d4 <= 9 ->
    OffsetString [sg; 48 + d1; 48 + d2; 58; 48 + d3; 48 + d4]
      (if sg =? 43 then 1 else -1) (10 * d1 + d2) (10 * d3 + d4).

(** [m] is the midnight that starts the local day of [now], in a zone
    [tz] milliseconds ahead of UTC, as a UTC timestamp. *)
Definition localMidnight (tz now m : Z) : Prop :=
  (m + tz) mod msPerDay = 0 /\ m <= now < m + msPerDay.



(** What [formatLocalTime] writes for a valid date, from its hour and
    minute fields. *)
Definition formatClock (h mi : Z) : jsstring :=
  Number_toString (if Z.rem h 12 =? 0 then Some 12 else Some (Z.rem h 12))
  ++ js ":" ++ padStart (Number_toString (Some mi)) 2 48 ++ js " "
  ++ (if h >=? 12 then js "PM" else js "AM").

Definition zrange (n : nat) : list Z := map Z.of_nat (seq 0 n).

(** [c] is [s] without its leading and trailing white space. *)
Definition Trimmed (s c : jsstring) : Prop :=
  exists pre post,
    s = pre ++ c ++ post
    /\ Forall (fun x => isWhiteSpace x = true) pre
    /\ Forall (fun x => isWhiteSpace x = true) post
    /\ (forall x r, c = x :: r -> isWhiteSpace x = false)
    /\ (forall x r, c = r ++ [x] -> isWhiteSpace x = false).

(** The two field names under which the code is accepted, the primary one
    first. *)
Definition acceptedFields : list jsstring := [js "contactId"; js "code"].

Definition fieldOf (parsed : JsVal) (k : jsstring) : JsVal :=
  match getProp parsed k with
  | Ok v => v
  | Throw _ => JUndefined
  end.

(** The spec's empty values of a field: an absent field ([undefined]),
    [null], [false], the number zero and the empty string. *)
Inductive EmptyValue : JsVal -> Prop :=
| empty_absent : EmptyValue JUndefined
| empty_null : EmptyValue JNull
| empty_false : EmptyValue (JBool false)
| empty_zero : EmptyValue (JNum 0)
| empty_string : EmptyValue (JStr []).

(** [v] is the first non-empty value among the accepted fields of a request
    body: the primary field's when that is not empty, the secondary field's
    when the primary one is empty and the secondary one is not. *)
Inductive FirstNonEmpty (parsed : JsVal) : JsVal -> Prop :=
| first_primary (v : JsVal) :
    fieldOf parsed (js "contactId") = v ->
    ~ EmptyValue v ->
    FirstNonEmpty parsed v
| first_secondary (v : JsVal) :
    EmptyValue (fieldOf parsed (js "contactId")) ->
    fieldOf parsed (js "code") = v ->
    ~ EmptyValue v ->
    FirstNonEmpty parsed v.

(** A field yields a code when it holds a string whose trimmed form is not
    empty. *)
Definition yieldsCode (v : JsVal) : Prop :=
  exists s c, v = JStr s /\ Trimmed s c /\ c <> [].



(* ===================================================================== *)
(** ** Fixtures: concrete hosts and requests *)
(* ===================================================================== *)

Module Fixture.

Definition quoted (s : jsstring) : jsstring := 34 :: s ++ [34].

(** The JSON text of [{"contactId": ..., "startTime": ...}]. *)
Definition recordText (contactId startTime : jsstring) : jsstring :=
  js "{" ++ quoted (js "contactId") ++ js ":" ++ quoted contactId ++ js ","
  ++ quoted (js "startTime") ++ js ":" ++ startTime ++ js "}".

Definition record (contactId : jsstring) (startTime : JsVal) : Record_ :=
  [ (js "contactId", JStr contactId); (js "startTime", startTime) ].

(** A host whose [JSON.parse] is the finite [table], whose scheduling
    service answers every request with [resp], whose clock reads [now1] at
    the lookup and [now2] afterwards, and whose [Date.parse] knows the
    ECMAScript format only. *)
Definition hostOf (apiKey location tz : option jsstring) (now1 now2 : Z)
    (resp : option Response) (table : list (jsstring * JsVal)) : Host :=
  {| GHL_API_KEY := apiKey;
     GHL_LOCATION_ID := location;
     APPOINTMENT_TZ := tz;
     clock := fun n => match n with O => now1 | _ => now2 end;
     upstream := fun _ => resp;
     JSON_parse := fun text =>
       match lookupProp table text with
       | JUndefined => None
       | v => Some v
       end;
     Date_parse_other := fun _ => NaN |}.

Definition contactId1 : jsstring := js "hsAZzqlAcxscd0xlWZ0e".
Definition start1 : jsstring := js "2024-01-01T15:00:00Z".

(** The spec's end-to-end example: one appointment at 2024-01-01T15:00:00Z. *)
Definition text1 : jsstring :=
  js "{" ++ quoted (js "appointments") ++ js ":["
  ++ recordText contactId1 (quoted start1) ++ js "]}".

Definition data1 : JsVal :=
  JObj [ (js "appointments", JArr [ JObj (record contactId1 (JStr start1)) ]) ].

(** The appointment list of [data1]. *)
Definition data1_appointments : JsVal :=
  JArr [ JObj (record contactId1 (JStr start1)) ].

(** Two appointments whose contact identifiers share their last four
    characters. *)
Definition contactId2 : jsstring := js "Qm81TTnn0pLkUyazWZ0e".

Definition text2 : jsstring :=
  js "{" ++ quoted (js "appointments") ++ js ":["
  ++ recordText contactId1 (quoted start1) ++ js ","
  ++ recordText contactId2 (quoted start1) ++ js "]}".

Definition data2 : JsVal :=
  JObj [ (js "appointments",
          JArr [ JObj (record contactId1 (JStr start1));
                 JObj (record contactId2 (JStr start1)) ]) ].

(** One appointment whose start time is JSON [null]. *)
Definition text3 : jsstring :=
  js "{" ++ quoted (js "appointments") ++ js ":["
  ++ recordText contactId1 (js "null") ++ js "]}".

Definition data3 : JsVal :=
  JObj [ (js "appointments", JArr [ JObj (record contactId1 JNull) ]) ].

(** One appointment whose start time is the object [{"toString": 0}]. *)
Definition text5 : jsstring :=
  js "{" ++ quoted (js "appointments") ++ js ":["
  ++ recordText contactId1 (js "{" ++ quoted (js "toString") ++ js ":0}")
  ++ js "]}".

Definition data5 : JsVal :=
  JObj [ (js "appointments",
          JArr [ JObj (record contactId1 (JObj [ (js "toString", JNum 0) ])) ]) ].

(** A success body without an appointments list. *)
Definition text4 : jsstring := js "{" ++ quoted (js "traceId") ++ js ":7}".
Definition data4 : JsVal := JObj [ (js "traceId", JNum 7) ].

(** Request bodies. *)
Definition bodyText1 : jsstring :=
  js "{" ++ quoted (js "contactId") ++ js ":" ++ quoted (js " WZ0e ") ++ js "}".
Definition bodyData1 : JsVal := JObj [ (js "contactId", JStr (js " WZ0e ")) ].

Definition table : list (jsstring * JsVal) :=
  [ (js "{}", JObj []); (text1, data1); (text2, data2); (text3, data3);
    (text4, data4); (text5, data5); (bodyText1, bodyData1) ].

Definition ok200 (text : jsstring) : option Response :=
  Some {| status := 200; bodyText := text |}.

(** 2024-01-01T15:00:00Z *)
Definition s1 : Z := 1704121200000.

Definition utc : option jsstring := Some (js "+00:00").

Definition configured (now1 now2 : Z) (resp : option Response) : Host :=
  hostOf (Some (js "key-1")) (Some (js "loc-1")) utc now1 now2 resp table.

Definition code1 : jsstring := js "WZ0e".

End Fixture.

Module FailureFixture.

(** The service answers 500 with a body that names internals. *)
Definition refusal : Response :=
  {| status := 500; bodyText := js "upstream stack trace: db-7 timeout" |}.

Definition host : Host :=
  Fixture.configured Fixture.s1 Fixture.s1 (Some refusal).

Definition event : Event :=
  {| httpMethod := js "POST"; body := Some Fixture.bodyText1 |}.

Definition request : Request :=
  lookupRequest host (js "loc-1") (js "key-1") Fixture.s1.

End FailureFixture.

Module ZoneFixture.

(** Five hours behind UTC; the clock reads 2024-01-01T03:00:00Z, which is
    22:00 of the previous local day. *)
Definition host : Host :=
  Fixture.hostOf (Some (js "key-1")) (Some (js "loc-1")) (Some (js "-05:00"))
    1704078000000 1704078000000 (Fixture.ok200 Fixture.text1) Fixture.table.

End ZoneFixture.

Module NullFixture.

(** The one appointment of the day carries [startTime: null]; the clock
    reads 2024-01-01T16:00:00Z. *)
Definition host : Host :=
  Fixture.configured 1704124800000 1704124800000 (Fixture.ok200 Fixture.text3).

(** The same day, with a start time that has no primitive value. *)
Definition opaque : Host :=
  Fixture.configured 1704124800000 1704124800000 (Fixture.ok200 Fixture.text5).

End NullFixture.

Module RequestFixture.

Definition host : Host :=
  Fixture.configured 1704124800000 1704124800000 (Fixture.ok200 Fixture.text1).

(** The body [{"contactId": " WZ0e "}]: the code with white space around
    it. *)
Definition event : Event :=
  {| httpMethod := js "POST"; body := Some Fixture.bodyText1 |}.

End RequestFixture.

Module FallbackFixture.

(** The body [{"contactId": "", "code": " WZ0e "}]: the primary field is
    empty, the code comes under the secondary name, with white space
    around it. *)
Definition bodyText : jsstring :=
  js "{" ++ Fixture.quoted (js "contactId") ++ js ":" ++ Fixture.quoted (js "")
  ++ js "," ++ Fixture.quoted (js "code") ++ js ":"
  ++ Fixture.quoted (js " WZ0e ") ++ js "}".
Definition bodyData : JsVal :=
  JObj [ (js "contactId", JStr (js "")); (js "code", JStr (js " WZ0e ")) ].

Definition host : Host :=
  Fixture.hostOf (Some (js "key-1")) (Some (js "loc-1")) Fixture.utc
    1704124800000 1704124800000 (Fixture.ok200 Fixture.text1)
    [ (Fixture.text1, Fixture.data1); (bodyText, bodyData) ].

Definition event : Event :=
  {| httpMethod := js "POST"; body := Some bodyText |}.

End FallbackFixture.

Module UnconfiguredFixture.

(** Neither the location identifier nor the credential is set; the request
    carries a full contact identifier, which is not a four-character
    code. *)
Definition bodyText : jsstring :=
  js "{" ++ Fixture.quoted (js "contactId") ++ js ":"
  ++ Fixture.quoted Fixture.contactId1 ++ js "}".
Definition bodyData : JsVal :=
  JObj [ (js "contactId", JStr Fixture.contactId1) ].

Definition host : Host :=
  Fixture.hostOf None None Fixture.utc 1704124800000 1704124800000
    (Fixture.ok200 Fixture.text1) [ (bodyText, bodyData) ].

Definition event : Event :=
  {| httpMethod := js "POST"; body := Some bodyText |}.

End UnconfiguredFixture.

Module RangeFixture.

(** The one appointment of the day starts at the number 8640000000000000,
    the last ECMAScript time value; the zone is one hour ahead of UTC and
    the clock reads 2024-01-01T16:00:00Z. *)
Definition lastInstant : Z := 8640000000000000.

Definition text : jsstring :=
  js "{" ++ Fixture.quoted (js "appointments") ++ js ":["
  ++ Fixture.recordText Fixture.contactId1 (js "8640000000000000") ++ js "]}".

Definition data : JsVal :=
  JObj [ (js "appointments",
          JArr [ JObj (Fixture.record Fixture.contactId1 (JNum lastInstant)) ]) ].

Definition host : Host :=
  Fixture.hostOf (Some (js "key-1")) (Some (js "loc-1")) (Some (js "+01:00"))
    1704124800000 1704124800000 (Fixture.ok200 text) [ (text, data) ].

End RangeFixture.

(** [null] or [undefined]: the values whose properties cannot be read. *)
Definition nullish (v : JsVal) : Prop := v = JNull \/ v = JUndefined.

(** The minute of the day of a time value. *)
Definition minuteOfDay (t : Z) : Z := (t / msPerMinute) mod 1440.

Module BodyFixture.

(** Request bodies: a full contact identifier, [{"contactId": "   ",
    "code": "WZ0e"}], and [{"contactId": 1234, "code": "WZ0e"}]. *)
Definition fullIdText : jsstring :=
  js "{" ++ Fixture.quoted (js "contactId") ++ js ":"
  ++ Fixture.quoted Fixture.contactId1 ++ js "}".
Definition fullIdData : JsVal :=
  JObj [ (js "contactId", JStr Fixture.contactId1) ].

Definition blankPrimaryText : jsstring :=
  js "{" ++ Fixture.quoted (js "contactId") ++ js ":"
  ++ Fixture.quoted (js "   ") ++ js ","
  ++ Fixture.quoted (js "code") ++ js ":" ++ Fixture.quoted (js "WZ0e") ++ js "}".
Definition blankPrimaryData : JsVal :=
  JObj [ (js "contactId", JStr (js "   ")); (js "code", JStr (js "WZ0e")) ].

Definition numericPrimaryText : jsstring :=
  js "{" ++ Fixture.quoted (js "contactId") ++ js ":1234,"
  ++ Fixture.quoted (js "code") ++ js ":" ++ Fixture.quoted (js "WZ0e") ++ js "}".
Definition numericPrimaryData : JsVal :=
  JObj [ (js "contactId", JNum 1234); (js "code", JStr (js "WZ0e")) ].

(** Success bodies of the service: [{"appointments": "none"}] and
    [{"appointments": [null]}]. *)
Definition stringListText : jsstring :=
  js "{" ++ Fixture.quoted (js "appointments") ++ js ":"
  ++ Fixture.quoted (js "none") ++ js "}".
Definition stringListData : JsVal :=
  JObj [ (js "appointments", JStr (js "none")) ].

Definition table : list (jsstring * JsVal) :=
  [ (js "{}", JObj []); (Fixture.text1, Fixture.data1);
    (fullIdText, fullIdData); (blankPrimaryText, blankPrimaryData);
    (numericPrimaryText, numericPrimaryData);
    (stringListText, stringListData);
    (Fixture.bodyText1, Fixture.bodyData1) ].

Definition hostWith (resp : option Response) : Host :=
  Fixture.hostOf (Some (js "key-1")) (Some (js "loc-1")) Fixture.utc
    1704124800000 1704124800000 resp table.

Definition host : Host := hostWith (Fixture.ok200 Fixture.text1).

Definition post (text : jsstring) : Event :=
  {| httpMethod := js "POST"; body := Some text |}.

End BodyFixture.

(* ===================================================================== *)
(** ** The local test script, [test-local.js] *)
(* ===================================================================== *)

Module TestLocal.

(** [process.argv[2] ?? ""] *)
Definition argument (argv2 : option jsstring) : jsstring :=
  match argv2 with
  | Some a => a
  | None => js ""
  end.

(** [{ httpMethod: "POST", body: JSON.stringify({ contactId }), ... }];
    [stringify] is the engine's [JSON.stringify]. *)
Definition mockEvent (stringify : JsVal -> jsstring) (contactId : jsstring)
  : Event :=
  {| httpMethod := js "POST";
     body := Some (stringify (JObj [ (js "contactId", JStr contactId) ])) |}.

(** What the script prints after the status line. *)
Inductive Report :=
| AccessGranted (status : Z)
| AccessDenied (status : Z) (error : option jsstring)
| UnexpectedError.

(** The body of the script: call the handler, parse the response body, and
    branch on [body.valid].  An empty response body does not parse, and ends
    in the [catch] branch like a rejected call. *)
Definition run (host : Host) (stringify : JsVal -> jsstring)
    (argv2 : option jsstring) : Report :=
  match handler host (mockEvent stringify (argument argv2)) initial with
  | (Throw _, _) => UnexpectedError
  | (Ok response, _) =>
    match responseBody response with
    | EmptyBody => UnexpectedError
    | JsonBody v =>
      if valid v then AccessGranted (statusCode response)
      else AccessDenied (statusCode response) (error v)
    end
  end.

(** A [JSON.stringify] for the fixture host: the text of [{"contactId": c}]. *)
Definition stringifyFixture (v : JsVal) : jsstring :=
  match v with
  | JObj [ (_, JStr c) ] =>
    js "{" ++ Fixture.quoted (js "contactId") ++ js ":" ++ Fixture.quoted c ++ js "}"
  | _ => js "null"
  end.

End TestLocal.

(* ===================================================================== *)
(** ** The calendar of ECMAScript dates *)
(* ===================================================================== *)

Module JsCalendar.

(** [YearFromTime], on day numbers: the year whose first day is the last
    one not after [day].  The quotient is off by at most one year. *)
Definition YearFromDay (day : Z) : Z :=
  let y := 1970 + (400 * day) / 146097 in
  if day <? DayFromYear y then y - 1
  else if DayFromYear (y + 1) <=? day then y + 1
  else y.

Definition DayWithinYear (day : Z) : Z := day - DayFromYear (YearFromDay day).

Definition InLeapYear (day : Z) : Z :=
  if isLeapYear (YearFromDay day) then 1 else 0.

(** [MonthFromTime]: 0 for January. *)
Definition MonthFromDay (day : Z) : Z :=
  let d := DayWithinYear day in
  let leap := InLeapYear day in
  if d <? 31 then 0
  else if d <? 59 + leap then 1
  else if d <? 90 + leap then 2
  else if d <? 120 + leap then 3
  else if d <? 151 + leap then 4
  else if d <? 181 + leap then 5
  else if d <? 212 + leap then 6
  else if d <? 243 + leap then 7
  else if d <? 273 + leap then 8
  else if d <? 304 + leap then 9
  else if d <? 334 + leap then 10
  else 11.

(** [DateFromTime]: the day of the month, from 1. *)
Definition DateFromDay (day : Z) : Z :=
  let d := DayWithinYear day in
  let leap := InLeapYear day in
  match MonthFromDay day with
  | 0 => d + 1
  | 1 => d - 30
  | 2 => d - 58 - leap
  | 3 => d - 89 - leap
  | 4 => d - 119 - leap
  | 5 => d - 150 - leap
  | 6 => d - 180 - leap
  | 7 => d - 211 - leap
  | 8 => d - 242 - leap
  | 9 => d - 272 - leap
  | 10 => d - 303 - leap
  | _ => d - 333 - leap
  end.

(** [WeekDay]: 0 for Sunday; day 0 was a Thursday. *)
Definition WeekDay (day : Z) : Z := (day + 4) mod 7.

(** [MakeDay(year, month, date)] with a month counted from 0: months beyond
    the year carry into it, and the date is an offset from the first of the
    month, in range or not. *)
Definition MakeDay_js (year month date : Z) : Z :=
  let ym := year + month / 12 in
  let mn := month mod 12 in
  DayFromYear ym + daysBeforeMonth ym (mn + 1) + (date - 1).

(** [MakeFullYear]: a year from 0 to 99 stands for 1900 and later. *)
Definition MakeFullYear (year : Z) : Z :=
  if (0 <=? year) && (year <=? 99) then 1900 + year else year.

(** [Date.UTC(year, month, date)] *)
Definition Date_UTC (year month date : number) : number :=
  match year, month, date with
  | Some y, Some m, Some d =>
    TimeClip (Some (MakeDay_js (MakeFullYear y) m d * msPerDay))
  | _, _, _ => NaN
  end.

Definition getUTCFullYear (d : Date) : number :=
  option_map (fun t => YearFromDay (Day t)) d.
Definition getUTCDate (d : Date) : number :=
  option_map (fun t => DateFromDay (Day t)) d.
Definition getUTCDay (d : Date) : number :=
  option_map (fun t => WeekDay (Day t)) d.

(** [d.setUTCDate(date)]: the same month and time of day, another date. *)
Definition setUTCDate (d : Date) (date : number) : Date :=
  match d, date with
  | Some t, Some dt =>
    TimeClip (Some (MakeDay_js (YearFromDay (Day t)) (MonthFromDay (Day t)) dt
                    * msPerDay + t mod msPerDay))
  | _, _ => NaN
  end.

(** [n || k] on numbers: 0 and [NaN] are falsy. *)
Definition num_or (n : number) (k : Z) : number :=
  match n with
  | Some v => if v =? 0 then Some k else Some v
  | None => Some k
  end.

(** [Math.ceil(n / k)] for whole [n] and positive [k]. *)
Definition ceilDiv (n k : Z) : Z := - ((- n) / k).

End JsCalendar.

(* ===================================================================== *)
(** ** The earlier variants of the function: weekly codes *)
(* ===================================================================== *)

(** [c.toUpperCase()] of an ASCII character. *)
Definition asciiUpper (c : Z) : Z :=
  if (97 <=? c) && (c <=? 122) then c - 32 else c.

Definition isAscii (c : Z) : Prop := 0 <= c < 128.

(** What every engine's [String.prototype.toUpperCase] does on a string of
    ASCII characters. *)
Definition upperCaseOnAscii (toUpperCase : jsstring -> jsstring) : Prop :=
  forall s, Forall isAscii s -> toUpperCase s = map asciiUpper s.

(** Two strings that differ in the case of ASCII letters only. *)
Definition sameIgnoringCase (a b : jsstring) : Prop :=
  map asciiUpper a = map asciiUpper b.

(** The variant with a code fixed in the source,
    [debug-api.js] lines 64 to 142. *)
Module WeeklyCode.

Definition CURRENT_WEEK_CODE : jsstring := js "WEEK8".

(** [new Set(["ADMIN2024", "DESPLAINES", "MASTER"])] *)
Definition MASTER_CODES : list jsstring :=
  [js "ADMIN2024"; js "DESPLAINES"; js "MASTER"].

(** [set.has(x)] *)
Definition Set_has (set : list jsstring) (x : jsstring) : bool :=
  existsb (str_eqb x) set.

Section Engine.

Variable toUpperCase : jsstring -> jsstring.
Variable JSON_parse : jsstring -> option JsVal.

Definition validateAccessCode (code : JsVal) : Verdict :=
  match code with
  | JStr s =>
    if isEmpty s then denied (js "Code is required.")
    else
      let normalized := toUpperCase (trim s) in
      if str_eqb normalized CURRENT_WEEK_CODE || Set_has MASTER_CODES normalized
      then granted
      else denied (js "Invalid access code.")
  | _ => denied (js "Code is required.")
  end.

(** [(body.code || body.contactId || "").trim()] of the parsed body. *)
Definition readCode (event : Event) : Outcome jsstring :=
  match JSON_parse (str_or (body event) (js "{}")) with
  | None => Throw SyntaxError
  | Some parsed =>
    match getProp parsed (js "code") with
    | Throw e => Throw e
    | Ok code =>
      let first :=
        if truthy code then Ok code
        else
          match getProp parsed (js "contactId") with
          | Throw e => Throw e
          | Ok contactId => Ok (js_or contactId (JStr (js "")))
          end in
      match first with
      | Throw e => Throw e
      | Ok (JStr s) => Ok (trim s)
      | Ok _ => Throw TypeError
      end
    end
  end.

Definition handler (event : Event) : HttpResponse :=
  if str_eqb (httpMethod event) (js "OPTIONS")
  then respond 204 EmptyBody
  else if negb (str_eqb (httpMethod event) (js "POST"))
  then respond 405 (JsonBody (denied (js "Method not allowed.")))
  else
    match readCode event with
    | Throw _ => respond 400 (JsonBody (denied (js "Invalid JSON body.")))
    | Ok code =>
      if isEmpty code
      then respond 400 (JsonBody (denied (js "code is required.")))
      else respond 200 (JsonBody (validateAccessCode (JStr code)))
    end.

End Engine.

End WeeklyCode.

(** The variant whose weekly code follows the ISO week of the server's
    local date, [debug-api.js] lines 144 to 231. *)
Module RotatingCode.

Import JsCalendar.

(** What [new Date()] shows of the current day in the server's zone. *)
Record LocalNow := {
  getFullYear : Z;
  getMonth : Z;      (* 0 for January *)
  getDate : Z
}.

Definition MASTER_CODES : list jsstring :=
  [js "ADMIN2024"; js "DESPLAINES"; js "MASTER"].

(** The quotient [(d - yearStart) / 86400000] is a whole number: both dates
    are UTC midnights. *)
Definition getCurrentWeekNumber (now : LocalNow) : number :=
  let d : Date :=
    TimeClip (Date_UTC (Some (getFullYear now)) (Some (getMonth now))
                       (Some (getDate now))) in
  let d : Date :=
    setUTCDate d (num_sub (num_add (getUTCDate d) (Some 4))
                          (num_or (getUTCDay d) 7)) in
  let yearStart : Date :=
    TimeClip (Date_UTC (getUTCFullYear d) (Some 0) (Some 1)) in
  match d, yearStart with
  | Some td, Some ty => Some (ceilDiv ((td - ty) / msPerDay + 1) 7)
  | _, _ => NaN
  end.

Section Engine.

Variable toUpperCase : jsstring -> jsstring.
Variable now : LocalNow.

Definition validateAccessCode (code : JsVal) : Verdict :=
  match code with
  | JStr s =>
    if isEmpty s then denied (js "Code is required.")
    else
      let normalized := toUpperCase (trim s) in
      let weekCode := js "WEEK" ++ Number_toString (getCurrentWeekNumber now) in
      if str_eqb normalized weekCode || WeeklyCode.Set_has MASTER_CODES normalized
      then granted
      else denied (js "Invalid access code.")
  | _ => denied (js "Code is required.")
  end.

End Engine.

(** The day number of a local date, counted from 1970-01-01. *)
Definition dayNumber (now : LocalNow) : Z :=
  MakeDay_js (getFullYear now) (getMonth now) (getDate now).

(** A calendar date the clock can show, in the years 101 to 200000. *)
Definition validLocal (now : LocalNow) : Prop :=
  101 <= getFullYear now <= 200000
  /\ 0 <= getMonth now <= 11
  /\ 1 <= getDate now <= daysInMonth (getFullYear now) (getMonth now + 1).

(** The Thursday of the Monday-to-Sunday week of a day. *)
Definition thursdayOf (day : Z) : Z := day - (day + 3) mod 7 + 3.

(** ISO 8601: the week of a day is numbered by the rank of its Thursday
    among the Thursdays of that Thursday's year. *)
Definition isoWeek (day : Z) : Z :=
  (thursdayOf day - DayFromYear (YearFromDay (thursdayOf day))) / 7 + 1.

Definition isWeekCode (s : jsstring) : Prop :=
  exists w, 1 <= w <= 53 /\ s = js "WEEK" ++ Z_toString w.

End RotatingCode.

(* ===================================================================== *)
(** ** The diagnostic script, [debug-api.js] *)
(* ===================================================================== *)

Module DebugApi.

(** [d.setUTCHours(23, 59, 59, 999)]: the last millisecond of the UTC day. *)
Definition setUTCHours_end (d : Date) : Date :=
  match d with
  | Some t => TimeClip (Some (Day t * msPerDay + 86399999))
  | None => NaN
  end.

(** [start] and [end]: the bounds of the UTC day of [now], which the script
    sends as [startDate] and [endDate]. *)
Definition bounds (now : Z) : number * number :=
  let start := setUTCHours_0 (TimeClip (Some now)) in
  let end_ := setUTCHours_end (TimeClip (Some now)) in
  (getTime start, getTime end_).

End DebugApi.

(* ===================================================================== *)
(** ** Facts about strings and values *)
(* ===================================================================== *)

Lemma str_eqb_eq (a b : jsstring) : str_eqb a b = true <-> a = b.
Proof.
  revert b; induction a as [|x a IH]; intros [|y b]; simpl; split;
    try congruence; try reflexivity.
  - intros H. apply andb_true_iff in H as [Hx Hr].
    apply Z.eqb_eq in Hx. apply IH in Hr. congruence.
  - intros H. injection H as -> ->. rewrite Z.eqb_refl. simpl.
    apply IH. reflexivity.
Qed.

Lemma str_eqb_refl (a : jsstring) : str_eqb a a = true.
Proof. apply str_eqb_eq. reflexivity. Qed.

(** [endsWith] is the suffix relation on code units. *)
Lemma endsWith_spec (s t : jsstring) :
  endsWith s t = true <-> exists p, s = p ++ t.
Proof.
  unfold endsWith. rewrite andb_true_iff, Nat.leb_le, str_eqb_eq. split.
  - intros [_ Hs]. exists (firstn (length s - length t) s).
    pose proof (firstn_skipn (length s - length t) s) as E.
    rewrite Hs in E. symmetry. exact E.
  - intros [p ->]. rewrite length_app. split; [lia|].
    replace (length p + length t - length t)%nat with (length p) by lia.
    rewrite skipn_app, skipn_all, Nat.sub_diag. reflexivity.
Qed.

Lemma isAlnum_spec (c : Z) : isAlnum c = true <-> alnumChar c.
Proof. unfold isAlnum, isDigit, alnumChar. lia. Qed.

Lemma testCodeFormat_spec (code : jsstring) :
  testCodeFormat code = true <-> wellFormedCode code.
Proof.
  unfold wellFormedCode.
  destruct code as [|a [|b [|c [|d [|e r]]]]]; simpl;
    try (split; [discriminate | intros [H _]; discriminate]).
  rewrite !andb_true_iff, !isAlnum_spec. split.
  - intros [[[Ha Hb] Hc] Hd]. split; [reflexivity|].
    repeat (apply Forall_cons; [assumption|]). apply Forall_nil.
  - intros [_ H].
    inversion H as [|? ? Ha H1]; subst. inversion H1 as [|? ? Hb H2]; subst.
    inversion H2 as [|? ? Hc H3]; subst. inversion H3 as [|? ? Hd H4]; subst.
    tauto.
Qed.

Lemma wellFormedCode_nonempty (code : jsstring) :
  wellFormedCode code -> isEmpty code = false.
Proof. intros [Hl _]. destruct code; [discriminate | reflexivity]. Qed.

(** *** The match step on records *)

Lemma selects_spec (code : jsstring) (r : Record_) :
  selects code r = true <-> contactIdEndsWith code r.
Proof.
  unfold selects, contactIdEndsWith. split.
  - destruct (lookupProp r (js "contactId")); try discriminate.
    intros H. apply endsWith_spec in H as [p Hp]. eauto.
  - intros (c & p & -> & Hc). apply endsWith_spec. eauto.
Qed.

Lemma matchesCode_record (code : jsstring) (r : Record_) :
  matchesCode code (JObj r) = Ok (selects code r).
Proof.
  unfold matchesCode, selects. simpl.
  destruct (lookupProp r (js "contactId")); reflexivity.
Qed.

Lemma findMatches_records (code : jsstring) (recs : list Record_) :
  findMatches (JArr (map JObj recs)) code
  = Ok (map JObj (filter (selects code) recs)).
Proof.
  simpl. induction recs as [|r recs IH]; [reflexivity|].
  cbn [map Array_filter filter]. rewrite matchesCode_record, IH.
  destruct (selects code r); reflexivity.
Qed.

(* ===================================================================== *)
(** ** The decision procedure, step by step *)
(* ===================================================================== *)

Section Steps.

Variable host : Host.
Variables (code : jsstring) (st st1 : State) (appointments : JsVal).
Hypothesis code_ok : wellFormedCode code.
Hypothesis lookup_ok : fetchTodaysAppointments host st = (Ok appointments, st1).



Lemma validateCode_one_match (appt startTime : JsVal) :
  findMatches appointments code = Ok [appt] ->
  getProp appt (js "startTime") = Ok startTime ->
  validateCode host code st =
  match resolveStart host startTime with
  | Throw e => (Throw e, st1)
  | Ok None => (Ok unreadableStart, st1)
  | Ok (Some s) => (Ok (windowVerdict host s (clock host (ticks st1))), tick st1)
  end.
Proof.
  intros Hm Hs. unfold validateCode.
  rewrite (proj2 (testCodeFormat_spec code) code_ok). cbn [negb].
  unfold bind, lift. rewrite lookup_ok, Hm.
  cbn [length Nat.eqb Nat.ltb Nat.leb nth]. rewrite Hs.
  destruct (resolveStart host startTime) as [[s|]|e]; [|reflexivity|reflexivity].
  unfold Date_now, ret, windowVerdict, tick.
  destruct (isWithinWindow s (clock host (ticks st1))); reflexivity.
Qed.

End Steps.

Lemma isWithinWindow_spec (s t : Z) :
  isWithinWindow s t = true <-> s - 2 * msPerHour <= t <= s + 4 * msPerHour.
Proof.
  unfold isWithinWindow, WINDOW_BEFORE_MS, WINDOW_AFTER_MS, msPerHour. lia.
Qed.

(* ===================================================================== *)
(** ** The spec's end-to-end examples *)
(* ===================================================================== *)

Example e2e_granted :
  fst (validateCode (Fixture.configured 1704124800000 1704124800000
                       (Fixture.ok200 Fixture.text1)) Fixture.code1 initial)
  = Ok granted.
Proof. vm_compute. reflexivity. Qed.

Example e2e_denied :
  fst (validateCode (Fixture.configured 1704139201000 1704139201000
                       (Fixture.ok200 Fixture.text1)) Fixture.code1 initial)
  = Ok (denied (js "Appointment is at 3:00 PM but you are outside the access window (2 hours before → 4 hours after appointment time).")).
Proof. vm_compute. reflexivity. Qed.

(* ===================================================================== *)
(** ** The format guard (C2) *)
(* ===================================================================== *)



(* ===================================================================== *)
(** ** The access window (C1) *)
(* ===================================================================== *)



(* ===================================================================== *)
(** ** The match step (C3, C9) *)
(* ===================================================================== *)

(** C9.  On records of arbitrary shape the match step always returns, and a
    record whose [contactId] is absent or is not a string is never among the
    matches. *)
Theorem match_step_total_on_records (code : jsstring) (recs : list Record_) :
  exists matches,
    findMatches (JArr (map JObj recs)) code = Ok matches
    /\ forall r, In (JObj r) matches ->
         exists contactId, lookupProp r (js "contactId") = JStr contactId.
Proof.
  exists (map JObj (filter (selects code) recs)).
  split; [apply findMatches_records|].
  intros r Hin. apply in_map_iff in Hin as (r' & Heq & Hsel).
  injection Heq as ->. apply filter_In in Hsel as [_ Hsel].
  apply selects_spec in Hsel as (c & _ & Hc & _). eauto.
Qed.

(** The match step is not total on arrays that hold [null]: reading a
    property of [null] throws. *)
Example findMatches_null_element :
  findMatches (JArr [JNull]) Fixture.code1 = Throw TypeError.
Proof. reflexivity. Qed.



(* ===================================================================== *)
(** ** The lookup *)
(* ===================================================================== *)

Section Lookup.

Variable host : Host.
Variable st : State.

Lemma lookup_without_location :
  nonEmpty (GHL_LOCATION_ID host) = None ->
  fetchTodaysAppointments host st
  = (Throw (Error (js "GHL_LOCATION_ID environment variable is not set.")), st).
Proof. intros H. unfold fetchTodaysAppointments. rewrite H. reflexivity. Qed.

Lemma lookup_without_credential (locationId : jsstring) :
  nonEmpty (GHL_LOCATION_ID host) = Some locationId ->
  nonEmpty (GHL_API_KEY host) = None ->
  fetchTodaysAppointments host st
  = (Throw (Error (js "GHL_API_KEY environment variable is not set.")), tick st).
Proof.
  intros Hl Hk. unfold fetchTodaysAppointments. rewrite Hl.
  unfold bind, Date_now, authHeaders. rewrite Hk.
  destruct (todayBounds _ _). reflexivity.
Qed.

(** With both variables set the lookup reads the clock once, sends one
    request, and its result is decided by the answer. *)
Lemma lookup_configured (locationId apiKey : jsstring) :
  nonEmpty (GHL_LOCATION_ID host) = Some locationId ->
  nonEmpty (GHL_API_KEY host) = Some apiKey ->
  let req := lookupRequest host locationId apiKey (clock host (ticks st)) in
  fetchTodaysAppointments host st =
  (match upstream host req with
   | None => Throw FetchError
   | Some resp =>
     if response_ok resp then
       match JSON_parse host (bodyText resp) with
       | None => Throw SyntaxError
       | Some data =>
         match getProp data (js "appointments") with
         | Throw e => Throw e
         | Ok appointments => Ok (js_nullish appointments (JArr []))
         end
       end
     else Throw (upstreamError resp)
   end, afterRequest st req).
Proof.
  intros Hl Hk req. unfold fetchTodaysAppointments. rewrite Hl.
  unfold bind, Date_now, authHeaders. rewrite Hk.
  subst req. unfold lookupRequest.
  destruct (todayBounds _ _) as [startMs endMs]. cbn [fst snd ret fetch].
  unfold fetch. cbn [ticks sent logged].
  match goal with |- context [upstream host ?r] => set (req := r) end.
  unfold afterRequest.
  destruct (upstream host req) as [resp|]; [|reflexivity].
  destruct (response_ok resp); cbn [negb]; [|reflexivity].
  unfold response_json, lift, ret, throw.
  destruct (JSON_parse host (bodyText resp)) as [data|]; [|reflexivity].
  destruct (getProp data (js "appointments")); reflexivity.
Qed.

End Lookup.

(* ===================================================================== *)
(** ** An empty success body (C10) *)
(* ===================================================================== *)



(* ===================================================================== *)
(** ** The entry point *)
(* ===================================================================== *)

Lemma handler_post (host : Host) (event : Event) (st : State) :
  httpMethod event = js "POST" ->
  handler host event st =
  match readCode host event with
  | Throw _ => (Ok (badRequest (js "Invalid JSON body.")), st)
  | Ok code =>
    if isEmpty code
    then (Ok (badRequest (js "contactId is required.")), st)
    else answer (validateCode host code st)
  end.
Proof.
  intros Hm. unfold handler. rewrite Hm.
  change (str_eqb (js "POST") (js "OPTIONS")) with false.
  change (str_eqb (js "POST") (js "POST")) with true. cbn [negb].
  destruct (readCode host event) as [code|e]; [|reflexivity].
  destruct (isEmpty code); [reflexivity|].
  unfold try_catch, bind, answer.
  destruct (validateCode host code st) as [[v|e] st']; reflexivity.
Qed.

(** *** Failures of the lookup (C5) *)

Lemma lookup_failure_throws (host : Host) (st st1 : State) (e : Exn) :
  LookupFailure host st e st1 ->
  fetchTodaysAppointments host st = (Throw e, st1).
Proof.
  intros [Hl | loc Hl Hk | loc key resp Hl Hk Hu Hok].
  - apply lookup_without_location. exact Hl.
  - apply (lookup_without_credential host st loc Hl Hk).
  - rewrite (lookup_configured host st loc key Hl Hk). cbv zeta.
    rewrite Hu, Hok. reflexivity.
Qed.

Lemma validateCode_lookup_throws (host : Host) (code : jsstring)
    (st st1 : State) (e : Exn) :
  wellFormedCode code ->
  fetchTodaysAppointments host st = (Throw e, st1) ->
  validateCode host code st = (Throw e, st1).
Proof.
  intros Hc Hl. unfold validateCode.
  rewrite (proj2 (testCodeFormat_spec code) Hc). cbn [negb].
  unfold bind. rewrite Hl. reflexivity.
Qed.

(** C5, as amended.  For a POST request whose trimmed code has the code
    format, so that the lookup is attempted, a failure of the lookup
    (missing location identifier, missing credential, or a non-2xx answer)
    is answered with status 500 and the one generic body [internalError], a
    constant in which nothing of the error, of the upstream status or of the
    upstream body occurs; the error itself goes to the log.  The response is
    never the 200 response that carries a verdict of the decision
    procedure. *)
Theorem lookup_failure_is_internal_error (host : Host) (event : Event)
    (code : jsstring) (st st1 : State) (e : Exn) :
  httpMethod event = js "POST" ->
  readCode host event = Ok code ->
  wellFormedCode code ->
  LookupFailure host st e st1 ->
  handler host event st = (Ok internalError, logError e st1)
  /\ statusCode internalError = 500
  /\ forall verdict, internalError <> respond 200 (JsonBody verdict).
Proof.
  intros Hm Hr Hc Hf.
  split; [|split; [reflexivity | intros v H; discriminate H]].
  rewrite (handler_post host event st Hm), Hr.
  rewrite (wellFormedCode_nonempty code Hc).
  rewrite (validateCode_lookup_throws host code st st1 e Hc
             (lookup_failure_throws host st st1 e Hf)).
  reflexivity.
Qed.

Lemma lookup_failure_is_internal_error_witness :
  handler FailureFixture.host FailureFixture.event initial
  = (Ok internalError,
     logError (upstreamError FailureFixture.refusal)
       (afterRequest initial FailureFixture.request)).
Proof.
  refine (proj1 (lookup_failure_is_internal_error
            FailureFixture.host FailureFixture.event Fixture.code1 initial
            (afterRequest initial FailureFixture.request)
            (upstreamError FailureFixture.refusal) _ _ _ _)).
  - reflexivity.
  - vm_compute. reflexivity.
  - apply testCodeFormat_spec. vm_compute. reflexivity.
  - apply (upstream_refused FailureFixture.host initial
             (js "loc-1") (js "key-1") FailureFixture.refusal);
      vm_compute; reflexivity.
Defined.

(** C5 as stated fails: with the location identifier and the credential
    both missing, a POST request whose code is a full contact identifier is
    answered with status 200 and the invalid-format verdict of the decision
    procedure.  The format is checked before the configuration is read, so
    the state is unchanged and nothing is logged. *)
Lemma missing_configuration_behind_format_guard :
  GHL_LOCATION_ID UnconfiguredFixture.host = None
  /\ GHL_API_KEY UnconfiguredFixture.host = None
  /\ LookupFailure UnconfiguredFixture.host initial
       (Error (js "GHL_LOCATION_ID environment variable is not set.")) initial
  /\ httpMethod UnconfiguredFixture.event = js "POST"
  /\ handler UnconfiguredFixture.host UnconfiguredFixture.event initial
     = (Ok (respond 200 (JsonBody invalidFormat)), initial)
  /\ respond 200 (JsonBody invalidFormat) <> internalError
  /\ ~ (forall (host : Host) (event : Event) (st st1 : State) (e : Exn),
          httpMethod event = js "POST" ->
          LookupFailure host st e st1 ->
          fst (handler host event st) = Ok internalError).
Proof.
  assert (F : LookupFailure UnconfiguredFixture.host initial
                (Error (js "GHL_LOCATION_ID environment variable is not set."))
                initial)
    by (apply location_missing; reflexivity).
  assert (H : handler UnconfiguredFixture.host UnconfiguredFixture.event initial
              = (Ok (respond 200 (JsonBody invalidFormat)), initial))
    by (vm_compute; reflexivity).
  assert (N : respond 200 (JsonBody invalidFormat) <> internalError)
    by (intros E; discriminate E).
  repeat (split; [first [reflexivity | exact F | exact H | exact N]|]).
  intros All.
  specialize (All UnconfiguredFixture.host UnconfiguredFixture.event
                initial initial _ eq_refl F).
  rewrite H in All. cbn [fst] in All. apply N.
  exact (f_equal (fun o => match o with Ok r => r | Throw _ => internalError end)
           All).
Qed.

(* ===================================================================== *)
(** ** Today's bounds (C6) *)
(* ===================================================================== *)

Lemma parseTzOffsetMs_wellformed (s : jsstring) (sign hh mm : Z) :
  OffsetString s sign hh mm ->
  parseTzOffsetMs (Some s) = sign * (hh * 60 + mm) * 60 * 1000.
Proof.
  intros [sg d1 d2 d3 d4 Hsg H1 H2 H3 H4].
  unfold parseTzOffsetMs, str_or, nonEmpty.
  assert (D : forall d, 0 <= d <= 9 -> isDigit (48 + d) = true)
    by (intros d Hd; unfold isDigit; lia).
  rewrite (D d1 H1), (D d2 H2), (D d3 H3), (D d4 H4).
  replace ((sg =? 43) || (sg =? 45)) with true by (destruct Hsg; subst; reflexivity).
  cbn [andb Z.eqb Pos.eqb]. unfold parseInt, digitVal. cbn [fold_left].
  destruct (sg =? 43); ring.
Qed.

Lemma parseTzOffsetMs_absent : parseTzOffsetMs None = 0.
Proof. reflexivity. Qed.

Lemma parseTzOffsetMs_malformed (s : jsstring) :
  (forall sign hh mm, ~ OffsetString s sign hh mm) ->
  parseTzOffsetMs (Some s) = 0.
Proof.
  intros Hbad. unfold parseTzOffsetMs, str_or, nonEmpty.
  destruct s as [|sg [|h1 [|h2 [|colon [|m1 [|m2 [|x r]]]]]]]; try reflexivity.
  destruct (((sg =? 43) || (sg =? 45)) && isDigit h1 && isDigit h2
            && (colon =? 58) && isDigit m1 && isDigit m2) eqn:T; [|reflexivity].
  exfalso. unfold isDigit in T.
  apply (Hbad (if sg =? 43 then 1 else -1)
              (10 * (h1 - 48) + (h2 - 48)) (10 * (m1 - 48) + (m2 - 48))).
  replace colon with 58 by lia.
  replace h1 with (48 + (h1 - 48)) at 1 by lia.
  replace h2 with (48 + (h2 - 48)) at 1 by lia.
  replace m1 with (48 + (m1 - 48)) at 1 by lia.
  replace m2 with (48 + (m2 - 48)) at 1 by lia.
  apply offset_string; lia.
Qed.

Lemma todayBounds_spec (now tz : Z) :
  Z.abs (now + tz) <= maxTime ->
  let m := Day (now + tz) * msPerDay - tz in
  todayBounds now tz = (Some m, Some (m + 24 * msPerHour - 1))
  /\ localMidnight tz now m.
Proof.
  intros Hr m. unfold todayBounds, TimeClip.
  rewrite (proj2 (Z.leb_le _ _) Hr). cbn [setUTCHours_0 TimeClip].
  assert (Hd : Z.abs (Day (now + tz) * msPerDay) <= maxTime).
  { unfold Day, msPerDay, maxTime in *. Z.div_mod_to_equations. lia. }
  rewrite (proj2 (Z.leb_le _ _) Hd). cbn [getTime num_sub num_add].
  split.
  - reflexivity.
  - unfold localMidnight. subst m. unfold Day, msPerDay.
    replace ((now + tz) / 86400000 * 86400000 - tz + tz)
      with ((now + tz) / 86400000 * 86400000) by lia.
    split; [apply Z.mod_mul; lia|].
    Z.div_mod_to_equations. lia.
Qed.

(** C6.  With the configuration present, the request the lookup sends
    carries as its two bounds the local midnight [m] of the current instant,
    as a UTC epoch-millisecond timestamp, and [m + 24h - 1ms]; the offset is
    [sign * (HH * 60 + MM) * 60 * 1000] for a well-formed [±HH:MM] and [0]
    for an absent or malformed string.  (The instant shifted by the offset
    is taken to be a time value, as every real clock reading is.) *)
Theorem today_bounds_are_local_midnight :
  (forall (host : Host) (st : State) (locationId apiKey : jsstring),
     nonEmpty (GHL_LOCATION_ID host) = Some locationId ->
     nonEmpty (GHL_API_KEY host) = Some apiKey ->
     let now := clock host (ticks st) in
     let tz := parseTzOffsetMs (APPOINTMENT_TZ host) in
     Z.abs (now + tz) <= maxTime ->
     exists m req,
       localMidnight tz now m
       /\ sent (snd (fetchTodaysAppointments host st)) = req :: sent st
       /\ req_startDate req = Z_toString m
       /\ req_endDate req = Z_toString (m + 24 * msPerHour - 1))
  /\ (forall s sign hh mm,
        OffsetString s sign hh mm ->
        parseTzOffsetMs (Some s) = sign * (hh * 60 + mm) * 60 * 1000)
  /\ parseTzOffsetMs None = 0
  /\ (forall s,
        (forall sign hh mm, ~ OffsetString s sign hh mm) ->
        parseTzOffsetMs (Some s) = 0).
Proof.
  split; [|split; [exact parseTzOffsetMs_wellformed
                  |split; [exact parseTzOffsetMs_absent
                          |exact parseTzOffsetMs_malformed]]].
  intros host st loc key Hl Hk now tz Hr.
  destruct (todayBounds_spec now tz Hr) as [Hb Hm].
  exists (Day (now + tz) * msPerDay - tz), (lookupRequest host loc key now).
  split; [exact Hm|].
  rewrite (lookup_configured host st loc key Hl Hk). cbv zeta.
  fold now. cbn [snd afterRequest sent].
  split; [reflexivity|].
  unfold lookupRequest. fold tz. rewrite Hb. cbn [fst snd req_startDate req_endDate].
  split; reflexivity.
Qed.

Lemma today_bounds_are_local_midnight_witness :
  exists req,
    sent (snd (fetchTodaysAppointments ZoneFixture.host initial)) = [req]
    /\ req_startDate req = js "1703998800000"
    /\ req_endDate req = js "1704085199999".
Proof.
  destruct (proj1 today_bounds_are_local_midnight ZoneFixture.host initial
              (js "loc-1") (js "key-1"))
    as (m & req & [Hmod Hrange] & Hsent & Hstart & Hend).
  - reflexivity.
  - reflexivity.
  - vm_compute. discriminate.
  - exists req. split; [exact Hsent|].
    assert (Hm : m = 1703998800000).
    { change (parseTzOffsetMs (APPOINTMENT_TZ ZoneFixture.host)) with (-18000000) in *.
      change (clock ZoneFixture.host (ticks initial)) with 1704078000000 in *.
      unfold msPerDay in *. Z.div_mod_to_equations. lia. }
    rewrite Hm in Hstart, Hend. split; [exact Hstart | exact Hend].
Defined.

(* ===================================================================== *)
(** ** The out-of-window reason (C7) *)
(* ===================================================================== *)

Lemma formatLocalTime_valid (epochMs tzOffsetMs : Z) :
  Z.abs (epochMs + tzOffsetMs) <= maxTime ->
  formatLocalTime epochMs tzOffsetMs
  = formatClock (HourFromTime (epochMs + tzOffsetMs))
                (MinFromTime (epochMs + tzOffsetMs)).
Proof.
  intros Hr. unfold formatLocalTime, TimeClip.
  rewrite (proj2 (Z.leb_le _ _) Hr). reflexivity.
Qed.

Lemma in_zrange (z : Z) (n : nat) : 0 <= z < Z.of_nat n -> In z (zrange n).
Proof.
  intros Hz. unfold zrange. apply in_map_iff. exists (Z.to_nat z).
  split; [lia | apply in_seq; lia].
Qed.











(* ===================================================================== *)
(** ** Start-time resolution (C4) *)
(* ===================================================================== *)

(** A start time that resolves to [NaN] gives the could-not-read verdict,
    and nothing is thrown. *)
Lemma unreadable_start_is_denied (host : Host) (code : jsstring)
    (st st1 : State) (appointments appt startTime : JsVal) :
  wellFormedCode code ->
  fetchTodaysAppointments host st = (Ok appointments, st1) ->
  findMatches appointments code = Ok [appt] ->
  getProp appt (js "startTime") = Ok startTime ->
  resolveStart host startTime = Ok NaN ->
  validateCode host code st = (Ok unreadableStart, st1).
Proof.
  intros Hc Hl Hm Hp Hs.
  rewrite (validateCode_one_match host code st st1 appointments Hc Hl
             appt startTime Hm Hp), Hs.
  reflexivity.
Qed.

(** The values that resolve to [NaN]: an absent field, and a string (or the
    string form of an array or object) that [Date.parse] rejects or places
    outside the range of time values. *)
Lemma resolveStart_NaN_iff (host : Host) (v : JsVal) :
  resolveStart host v = Ok NaN <->
  v = JUndefined
  \/ exists s,
       ((v = JStr s) \/ (exists l, v = JArr l) \/ (exists p, v = JObj p))
       /\ ToString v = Ok s
       /\ TimeClip (Date_parse host s) = NaN.
Proof.
  unfold resolveStart, Date_new, getTime. split.
  - destruct v as [| |b|z|s|l|p]; try discriminate; intros H.
    + left. reflexivity.
    + exfalso. destruct b; discriminate H.
    + right. exists s. split; [left; reflexivity|].
      split; [reflexivity | congruence].
    + right. destruct (ToString (JArr l)) as [s|e]; [|discriminate H].
      exists s. split; [right; left; eauto|]. split; [reflexivity | congruence].
    + right. destruct (ToString (JObj p)) as [s|e]; [|discriminate H].
      exists s. split; [right; right; eauto|]. split; [reflexivity | congruence].
  - intros [-> | (s & [-> | [[l ->] | [p ->]]] & Hs & H)]; try reflexivity.
    + rewrite H. reflexivity.
    + rewrite Hs, H. reflexivity.
    + rewrite Hs, H. reflexivity.
Qed.

Lemma resolveStart_empty_string (host : Host) :
  Date_parse_other host (js "") = NaN ->
  resolveStart host (JStr (js "")) = Ok NaN.
Proof.
  intros H. unfold resolveStart, Date_new, getTime, Date_parse.
  change (parseIsoUtc (js "")) with (@None Z). rewrite H. reflexivity.
Qed.

(** C4 (the code departs from the claim).  A start-time field holding
    [null] is neither a number nor a string, yet [new Date(null)] is the
    epoch: the field resolves to instant 0, and the verdict is the
    window-violation reason for an appointment at 12:00 AM, not the
    could-not-read reason.  A start-time field holding an object with a
    [toString] property of its own cannot be converted to a primitive:
    [new Date] throws, and so does [validateCode].  (The claim does hold for
    an absent field and for a string that does not parse:
    [unreadable_start_is_denied], [resolveStart_NaN_iff].) *)
Theorem null_start_time_is_read_as_epoch :
  (forall host, resolveStart host JNull = Ok (Some 0))
  /\ fst (validateCode NullFixture.host Fixture.code1 initial)
     = Ok (denied (js "Appointment is at 12:00 AM but you are outside the access window (2 hours before → 4 hours after appointment time)."))
  /\ fst (validateCode NullFixture.host Fixture.code1 initial)
     <> Ok unreadableStart
  /\ fst (validateCode NullFixture.opaque Fixture.code1 initial)
     = Throw TypeError.
Proof.
  split; [reflexivity|].
  split; [vm_compute; reflexivity|].
  split; [vm_compute; discriminate | vm_compute; reflexivity].
Qed.

(* ===================================================================== *)
(** ** Reading the code from the request (C8) *)
(* ===================================================================== *)

Lemma trimStart_split (s : jsstring) :
  exists pre,
    s = pre ++ trimStart s
    /\ Forall (fun x => isWhiteSpace x = true) pre
    /\ (forall x r, trimStart s = x :: r -> isWhiteSpace x = false).
Proof.
  induction s as [|c s (pre & Hs & Hpre & Hhd)].
  - exists []. repeat split; [constructor | discriminate].
  - simpl. destruct (isWhiteSpace c) eqn:W.
    + exists (c :: pre). split; [simpl; f_equal; exact Hs|].
      split; [constructor; assumption | exact Hhd].
    + exists []. split; [reflexivity|]. split; [constructor|].
      intros x r E. injection E as <- _. exact W.
Qed.

Lemma trimEnd_split (s : jsstring) :
  exists post,
    s = trimEnd s ++ post
    /\ Forall (fun x => isWhiteSpace x = true) post
    /\ (forall x r, trimEnd s = r ++ [x] -> isWhiteSpace x = false).
Proof.
  unfold trimEnd.
  destruct (trimStart_split (rev s)) as (pre & Hs & Hpre & Hhd).
  exists (rev pre). split; [|split].
  - rewrite <- rev_app_distr, <- Hs, rev_involutive. reflexivity.
  - apply Forall_rev. exact Hpre.
  - intros x r E. apply (Hhd x (rev r)).
    rewrite <- (rev_involutive (trimStart (rev s))), E, rev_app_distr.
    reflexivity.
Qed.

Lemma trim_spec (s : jsstring) : Trimmed s (trim s).
Proof.
  unfold trim.
  destruct (trimStart_split s) as (pre & Hs & Hpre & Hhd).
  destruct (trimEnd_split (trimStart s)) as (post & Ht & Hpost & Hlast).
  exists pre, post. split; [rewrite <- Ht; exact Hs|].
  split; [exact Hpre|]. split; [exact Hpost|]. split; [|exact Hlast].
  intros x r E. apply (Hhd x (r ++ post)).
  rewrite Ht at 1. rewrite E. reflexivity.
Qed.

Lemma trimStart_white (pre rest : jsstring) :
  Forall (fun x => isWhiteSpace x = true) pre ->
  trimStart (pre ++ rest) = trimStart rest.
Proof.
  induction 1 as [|x pre Hx _ IH]; simpl; [reflexivity|].
  rewrite Hx. exact IH.
Qed.

Lemma trimStart_head (s : jsstring) :
  (forall x r, s = x :: r -> isWhiteSpace x = false) -> trimStart s = s.
Proof.
  destruct s as [|x r]; [reflexivity|]. intros H. simpl.
  rewrite (H x r eq_refl). reflexivity.
Qed.

(** The trimmed form of a string is unique: it is what [trim] returns. *)
Lemma Trimmed_unique (s c : jsstring) : Trimmed s c -> c = trim s.
Proof.
  intros (pre & post & -> & Hpre & Hpost & Hhd & Hlast).
  unfold trim. rewrite (trimStart_white pre _ Hpre).
  destruct c as [|x r].
  - cbn [app]. rewrite <- (app_nil_r post), (trimStart_white post [] Hpost).
    reflexivity.
  - rewrite (trimStart_head ((x :: r) ++ post)).
    + unfold trimEnd. rewrite rev_app_distr.
      rewrite (trimStart_white (rev post) _ (Forall_rev Hpost)).
      rewrite trimStart_head; [symmetry; apply rev_involutive|].
      intros y r' E. apply (Hlast y (rev r')).
      rewrite <- (rev_involutive (x :: r)), E. reflexivity.
    + intros y r' E. injection E as <- _. exact (Hhd x r eq_refl).
Qed.

(** The values the program treats as false are the spec's empty values. *)
Lemma truthy_empty (v : JsVal) : truthy v = false <-> EmptyValue v.
Proof.
  split.
  - destruct v as [| |b|z|s|l|p]; simpl; intros H;
      try discriminate H; try constructor.
    + destruct b; [discriminate H | constructor].
    + apply negb_false_iff, Z.eqb_eq in H. subst z. constructor.
    + destruct s; [constructor | discriminate H].
  - intros []; reflexivity.
Qed.

Lemma truthy_nonempty (v : JsVal) : truthy v = true <-> ~ EmptyValue v.
Proof.
  rewrite <- truthy_empty. destruct (truthy v); split; congruence.
Qed.

Lemma FirstNonEmpty_unique (parsed v w : JsVal) :
  FirstNonEmpty parsed v -> FirstNonEmpty parsed w -> v = w.
Proof.
  intros [v1 E1 N1 | v1 P1 E1 N1] [v2 E2 N2 | v2 P2 E2 N2]; subst;
    try reflexivity; contradiction.
Qed.

(** What the first [try] block computes, in the spec's terms. *)
Lemma readCode_cases (host : Host) (event : Event) (parsed : JsVal) :
  JSON_parse host (str_or (body event) (js "{}")) = Some parsed ->
  (exists s, FirstNonEmpty parsed (JStr s)
             /\ readCode host event = Ok (trim s))
  \/ (exists v, FirstNonEmpty parsed v /\ (forall s, v <> JStr s)
                /\ readCode host event = Throw TypeError)
  \/ ((forall v, ~ FirstNonEmpty parsed v)
      /\ (readCode host event = Ok [] \/ readCode host event = Throw TypeError)).
Proof.
  intros Hj. unfold readCode. rewrite Hj.
  destruct (getProp parsed (js "contactId")) as [a|e] eqn:Ha.
  - assert (Fa : fieldOf parsed (js "contactId") = a)
      by (unfold fieldOf; rewrite Ha; reflexivity).
    assert (Hb : exists b, getProp parsed (js "code") = Ok b).
    { destruct parsed; try discriminate Ha; simpl; eauto. }
    destruct Hb as [b Hb]. rewrite Hb.
    assert (Fb : fieldOf parsed (js "code") = b)
      by (unfold fieldOf; rewrite Hb; reflexivity).
    destruct (truthy a) eqn:Ta.
    + assert (Fst : FirstNonEmpty parsed a)
        by (apply first_primary; [exact Fa | apply truthy_nonempty; exact Ta]).
      destruct a as [| |x|z|s|l|q];
        try (right; left; eexists; split; [exact Fst|];
             split; [intros s0 E; discriminate E | reflexivity]).
      left. exists s. split; [exact Fst | reflexivity].
    + apply truthy_empty in Ta. unfold js_or. destruct (truthy b) eqn:Tb.
      * assert (Fst : FirstNonEmpty parsed b).
        { apply first_secondary;
            [rewrite Fa; exact Ta | exact Fb | apply truthy_nonempty; exact Tb]. }
        destruct b as [| |x|z|s|l|q];
          try (right; left; eexists; split; [exact Fst|];
               split; [intros s0 E; discriminate E | reflexivity]).
        left. exists s. split; [exact Fst | reflexivity].
      * apply truthy_empty in Tb. right. right. split; [|left; reflexivity].
        intros v [v1 E1 N1 | v1 P1 E1 N1]; subst; contradiction.
  - assert (T : e = TypeError /\ fieldOf parsed (js "contactId") = JUndefined
                /\ fieldOf parsed (js "code") = JUndefined).
    { destruct parsed; try discriminate Ha; injection Ha as <-;
        repeat split; reflexivity. }
    destruct T as (-> & Fa & Fb). right. right. split; [|right; reflexivity].
    intros v [v1 E1 N1 | v1 P1 E1 N1]; subst.
    + apply N1. rewrite Fa. constructor.
    + apply N1. rewrite Fb. constructor.
Qed.

(** C8.  On a POST request whose body parses, the handler takes the first
    non-empty value among [contactId] (preferred) and [code]: when that is a
    string, [validateCode] runs on its trimmed form, unless the trimmed form
    is empty, which is answered with status 400; when it is not a string
    the answer is status 400 as well.  A body that does not parse, and a
    body in which neither field yields a non-empty trimmed string, are
    answered with status 400 and a reason, and the state is untouched, so
    the lookup is not reached. *)
Theorem code_is_first_nonempty_field_trimmed (host : Host) (event : Event)
    (st : State) :
  httpMethod event = js "POST" ->
  match JSON_parse host (str_or (body event) (js "{}")) with
  | Some parsed =>
    (forall s c,
       FirstNonEmpty parsed (JStr s) -> Trimmed s c ->
       handler host event st
       = match c with
         | [] => (Ok (badRequest (js "contactId is required.")), st)
         | _ => answer (validateCode host c st)
         end)
    /\ (forall v,
          FirstNonEmpty parsed v -> (forall s, v <> JStr s) ->
          handler host event st
          = (Ok (badRequest (js "Invalid JSON body.")), st))
    /\ ((forall k, In k acceptedFields -> ~ yieldsCode (fieldOf parsed k)) ->
        exists reason,
          (reason = js "contactId is required."
           \/ reason = js "Invalid JSON body.")
          /\ handler host event st = (Ok (badRequest reason), st))
  | None =>
    handler host event st = (Ok (badRequest (js "Invalid JSON body.")), st)
  end.
Proof.
  intros Hm. rewrite (handler_post host event st Hm).
  destruct (JSON_parse host (str_or (body event) (js "{}"))) as [parsed|] eqn:Hj.
  - pose proof (readCode_cases host event parsed Hj) as R.
    split; [|split].
    + intros s c F T. apply Trimmed_unique in T. subst c.
      destruct R as [(s' & F' & ->) | [(v & F' & N & _) | (N & _)]].
      * pose proof (FirstNonEmpty_unique _ _ _ F F') as E. injection E as <-.
        destruct (trim s); reflexivity.
      * exfalso. apply (N s). apply (FirstNonEmpty_unique _ _ _ F' F).
      * exfalso. exact (N _ F).
    + intros v F Nv.
      destruct R as [(s' & F' & _) | [(v' & _ & _ & ->) | (N & _)]].
      * exfalso. apply (Nv s'). apply (FirstNonEmpty_unique _ _ _ F F').
      * reflexivity.
      * exfalso. exact (N _ F).
    + intros Hno.
      destruct R as [(s & F & ->) | [(v & _ & _ & ->) | (_ & [-> | ->])]].
      * destruct (trim s) as [|x r] eqn:E.
        -- eexists. split; [left; reflexivity | reflexivity].
        -- exfalso.
           assert (K : exists k, In k acceptedFields
                                 /\ fieldOf parsed k = JStr s).
           { destruct F as [v E1 _ | v _ E1 _].
             - exists (js "contactId"). split; [left; reflexivity | exact E1].
             - exists (js "code"). split; [right; left; reflexivity | exact E1]. }
           destruct K as (k & Hk & Hf). apply (Hno k Hk).
           exists s, (trim s). split; [exact Hf|].
           split; [apply trim_spec | rewrite E; discriminate].
      * eexists. split; [right; reflexivity | reflexivity].
      * eexists. split; [left; reflexivity | reflexivity].
      * eexists. split; [right; reflexivity | reflexivity].
  - unfold readCode. rewrite Hj. reflexivity.
Qed.

Lemma code_is_first_nonempty_field_trimmed_witness :
  FirstNonEmpty FallbackFixture.bodyData (JStr (js " WZ0e "))
  /\ handler FallbackFixture.host FallbackFixture.event initial
     = answer (validateCode FallbackFixture.host (js "WZ0e") initial)
  /\ fst (handler FallbackFixture.host FallbackFixture.event initial)
     = Ok (respond 200 (JsonBody granted)).
Proof.
  assert (F : FirstNonEmpty FallbackFixture.bodyData (JStr (js " WZ0e "))).
  { apply first_secondary.
    - change (fieldOf FallbackFixture.bodyData (js "contactId")) with (JStr []).
      constructor.
    - reflexivity.
    - intros E. inversion E. }
  assert (T : Trimmed (js " WZ0e ") (js "WZ0e")).
  { exists (js " "), (js " "). split; [reflexivity|].
    split; [repeat constructor|]. split; [repeat constructor|].
    split.
    - intros x r E. injection E as <- _. reflexivity.
    - intros x r E.
      destruct r as [|a [|b [|c [|d r]]]]; try discriminate E.
      + injection E as _ _ _ <-. reflexivity.
      + destruct r; discriminate E. }
  pose proof (code_is_first_nonempty_field_trimmed
                FallbackFixture.host FallbackFixture.event initial
                (eq_refl (js "POST"))) as H.
  change (JSON_parse FallbackFixture.host
            (str_or (body FallbackFixture.event) (js "{}")))
    with (Some FallbackFixture.bodyData) in H.
  destruct H as [H _]. specialize (H (js " WZ0e ") (js "WZ0e") F T).
  cbv iota in H.
  split; [exact F|]. split; [exact H|].
  rewrite H. vm_compute. reflexivity.
Defined.


(* ===================================================================== *)
(** ** Further properties of the decision procedure *)
(* ===================================================================== *)

(** Every run of [validateCode], by cases. *)
Lemma validateCode_cases (host : Host) (code : jsstring) (st : State) :
  validateCode host code st =
  if testCodeFormat code then
    match fetchTodaysAppointments host st with
    | (Throw e, st1) => (Throw e, st1)
    | (Ok appointments, st1) =>
      match findMatches appointments code with
      | Throw e => (Throw e, st1)
      | Ok [] => (Ok noAppointment, st1)
      | Ok [appt] =>
        match getProp appt (js "startTime") with
        | Throw e => (Throw e, st1)
        | Ok startTime =>
          match resolveStart host startTime with
          | Throw e => (Throw e, st1)
          | Ok None => (Ok unreadableStart, st1)
          | Ok (Some s) =>
            (Ok (windowVerdict host s (clock host (ticks st1))), tick st1)
          end
        end
      | Ok (_ :: _ :: _) => (Ok ambiguous, st1)
      end
    end
  else (Ok invalidFormat, st).
Proof.
  unfold validateCode. destruct (testCodeFormat code); [|reflexivity].
  cbn [negb]. unfold bind, lift.
  destruct (fetchTodaysAppointments host st) as [[appointments|e] st1];
    [|reflexivity].
  destruct (findMatches appointments code) as [[|appt [|b rest]]|e];
    try reflexivity.
  cbn [length Nat.eqb Nat.ltb Nat.leb nth].
  destruct (getProp appt (js "startTime")) as [startTime|e]; [|reflexivity].
  destruct (resolveStart host startTime) as [[s|]|e]; try reflexivity.
  unfold Date_now, ret, windowVerdict, tick.
  destruct (isWithinWindow s (clock host (ticks st1))); reflexivity.
Qed.

(** The format guard, as a rewriting step. *)
Lemma format_guard (host : Host) (code : jsstring) (st : State) :
  ~ wellFormedCode code ->
  validateCode host code st = (Ok invalidFormat, st).
Proof.
  intros Hbad. rewrite validateCode_cases.
  destruct (testCodeFormat code) eqn:T; [|reflexivity].
  exfalso. apply Hbad. apply testCodeFormat_spec. exact T.
Qed.

(** X1.  Access is never granted without cause: a [valid: true] verdict
    means that the code is well formed, the lookup returned, the match step
    selected exactly one appointment, its start time resolved to an instant
    [s], and the clock read after the lookup lies in [s - 2h, s + 4h]. *)
Theorem grant_is_sound (host : Host) (code : jsstring) (st st' : State)
    (verdict : Verdict) :
  validateCode host code st = (Ok verdict, st') ->
  valid verdict = true ->
  wellFormedCode code
  /\ exists appointments st1 appt startTime s,
       fetchTodaysAppointments host st = (Ok appointments, st1)
       /\ findMatches appointments code = Ok [appt]
       /\ getProp appt (js "startTime") = Ok startTime
       /\ resolveStart host startTime = Ok (Some s)
       /\ s - 2 * msPerHour <= clock host (ticks st1) <= s + 4 * msPerHour
       /\ st' = tick st1
       /\ verdict = granted.
Proof.
  intros Hrun Hv. rewrite validateCode_cases in Hrun.
  destruct (testCodeFormat code) eqn:T.
  2:{ injection Hrun as <- _. discriminate Hv. }
  split; [apply testCodeFormat_spec; exact T|].
  destruct (fetchTodaysAppointments host st) as [[appointments|e] st1] eqn:Hl;
    [|discriminate Hrun].
  destruct (findMatches appointments code) as [[|appt [|b rest]]|e] eqn:Hm;
    try discriminate Hrun;
    try (injection Hrun as <- _; discriminate Hv).
  destruct (getProp appt (js "startTime")) as [startTime|e] eqn:Hp;
    [|discriminate Hrun].
  destruct (resolveStart host startTime) as [[s|]|e] eqn:Hs;
    try discriminate Hrun;
    try (injection Hrun as <- _; discriminate Hv).
  injection Hrun as <- <-.
  exists appointments, st1, appt, startTime, s.
  unfold windowVerdict in *.
  destruct (isWithinWindow s (clock host (ticks st1))) eqn:W;
    [|discriminate Hv].
  apply isWithinWindow_spec in W.
  split; [reflexivity|]. split; [exact Hm|]. split; [exact Hp|].
  split; [exact Hs|]. split; [exact W|]. split; reflexivity.
Qed.

Lemma grant_is_sound_witness :
  exists appt s,
    findMatches Fixture.data1_appointments Fixture.code1 = Ok [appt]
    /\ s - 2 * msPerHour <= 1704124800000 <= s + 4 * msPerHour.
Proof.
  destruct (grant_is_sound RequestFixture.host Fixture.code1 initial
              (snd (validateCode RequestFixture.host Fixture.code1 initial))
              granted)
    as (_ & appointments & st1 & appt & startTime & s
        & Hl & Hm & _ & _ & Hw & _ & _).
  - vm_compute. reflexivity.
  - reflexivity.
  - exists appt, s. split.
    + assert (E : appointments = Fixture.data1_appointments).
      { assert (F : fst (fetchTodaysAppointments RequestFixture.host initial)
                    = Ok Fixture.data1_appointments) by (vm_compute; reflexivity).
        rewrite Hl in F. injection F as F. exact F. }
      rewrite <- E. exact Hm.
    + assert (E : ticks st1 = 1%nat).
      { assert (F : ticks (snd (fetchTodaysAppointments RequestFixture.host initial))
                    = 1%nat) by (vm_compute; reflexivity).
        rewrite Hl in F. exact F. }
      rewrite E in Hw. exact Hw.
Defined.

(** The three ways a lookup ends, with the state each leaves. *)
Lemma lookup_effects (host : Host) (st st1 : State) (o : Outcome JsVal) :
  fetchTodaysAppointments host st = (o, st1) ->
  (st1 = st /\ o = Throw (Error (js "GHL_LOCATION_ID environment variable is not set.")))
  \/ (st1 = tick st /\ o = Throw (Error (js "GHL_API_KEY environment variable is not set.")))
  \/ exists locationId apiKey,
       nonEmpty (GHL_LOCATION_ID host) = Some locationId
       /\ nonEmpty (GHL_API_KEY host) = Some apiKey
       /\ st1 = afterRequest st
                  (lookupRequest host locationId apiKey (clock host (ticks st))).
Proof.
  intros H.
  destruct (nonEmpty (GHL_LOCATION_ID host)) as [loc|] eqn:Hl.
  - destruct (nonEmpty (GHL_API_KEY host)) as [key|] eqn:Hk.
    + right. right. exists loc, key.
      rewrite (lookup_configured host st loc key Hl Hk) in H.
      injection H as _ H. auto.
    + right. left.
      rewrite (lookup_without_credential host st loc Hl Hk) in H.
      injection H as <- <-. auto.
  - left. rewrite (lookup_without_location host st Hl) in H.
    injection H as <- <-. auto.
Qed.

Lemma validateCode_state (host : Host) (code : jsstring) (st st' : State)
    (o : Outcome Verdict) :
  validateCode host code st = (o, st') ->
  st' = st
  \/ exists o1 st1,
       fetchTodaysAppointments host st = (o1, st1) /\ (st' = st1 \/ st' = tick st1).
Proof.
  intros H. rewrite validateCode_cases in H.
  destruct (testCodeFormat code); [|injection H as _ <-; left; reflexivity].
  right. destruct (fetchTodaysAppointments host st) as [o1 st1].
  exists o1, st1. split; [reflexivity|].
  destruct o1 as [appointments|e]; [|injection H as _ <-; left; reflexivity].
  destruct (findMatches appointments code) as [[|appt [|b rest]]|e];
    try (injection H as _ <-; left; reflexivity).
  destruct (getProp appt (js "startTime")) as [startTime|e];
    [|injection H as _ <-; left; reflexivity].
  destruct (resolveStart host startTime) as [[s|]|e];
    injection H as _ <-; auto.
Qed.

Lemma validateCode_keeps_log (host : Host) (code : jsstring) (st st' : State)
    (o : Outcome Verdict) :
  validateCode host code st = (o, st') -> logged st' = logged st.
Proof.
  intros H. apply validateCode_state in H as [-> | (o1 & st1 & Hl & Hs)];
    [reflexivity|].
  apply lookup_effects in Hl as [[-> _] | [[-> _] | (loc & key & _ & _ & ->)]];
    destruct Hs as [-> | ->]; reflexivity.
Qed.

(** X2.  One run of [validateCode] reads the clock at most twice, writes
    nothing to the log, and sends at most one request; a request that is
    sent goes to the appointments endpoint of the fixed base URL and carries
    the configured location identifier and the credential as a bearer
    token. *)
Theorem validateCode_effects (host : Host) (code : jsstring) (st st' : State)
    (o : Outcome Verdict) :
  validateCode host code st = (o, st') ->
  logged st' = logged st
  /\ (ticks st <= ticks st' <= ticks st + 2)%nat
  /\ (sent st' = sent st
      \/ exists req locationId apiKey,
           sent st' = req :: sent st
           /\ nonEmpty (GHL_LOCATION_ID host) = Some locationId
           /\ nonEmpty (GHL_API_KEY host) = Some apiKey
           /\ req_url req = js "https://rest.gohighlevel.com/v1/appointments/"
           /\ req_locationId req = locationId
           /\ req_Authorization req = js "Bearer " ++ apiKey).
Proof.
  intros H. apply validateCode_state in H as [-> | (o1 & st1 & Hl & Hs)].
  - split; [reflexivity|]. split; [lia | left; reflexivity].
  - apply lookup_effects in Hl
      as [[-> _] | [[-> _] | (loc & key & Hloc & Hkey & ->)]].
    + destruct Hs as [-> | ->]; cbn [tick logged ticks sent];
        (split; [reflexivity|]; split; [lia | left; reflexivity]).
    + destruct Hs as [-> | ->]; cbn [tick logged ticks sent];
        (split; [reflexivity|]; split; [lia | left; reflexivity]).
    + assert (R : exists req locationId apiKey,
                 lookupRequest host loc key (clock host (ticks st)) :: sent st
                 = req :: sent st
                 /\ nonEmpty (GHL_LOCATION_ID host) = Some locationId
                 /\ nonEmpty (GHL_API_KEY host) = Some apiKey
                 /\ req_url req = js "https://rest.gohighlevel.com/v1/appointments/"
                 /\ req_locationId req = locationId
                 /\ req_Authorization req = js "Bearer " ++ apiKey).
      { exists (lookupRequest host loc key (clock host (ticks st))), loc, key.
        repeat split; assumption || reflexivity. }
      destruct Hs as [-> | ->]; cbn [tick afterRequest logged ticks sent];
        (split; [reflexivity|]; split; [lia | right; exact R]).
Qed.

Lemma validateCode_effects_witness :
  exists req,
    sent (snd (validateCode RequestFixture.host Fixture.code1 initial)) = [req]
    /\ req_Authorization req = js "Bearer key-1".
Proof.
  destruct (validateCode_effects RequestFixture.host Fixture.code1 initial
              (snd (validateCode RequestFixture.host Fixture.code1 initial))
              (fst (validateCode RequestFixture.host Fixture.code1 initial)))
    as (_ & _ & [Hs | (req & loc & key & Hs & _ & Hk & _ & _ & Ha)]).
  - vm_compute. reflexivity.
  - exfalso. vm_compute in Hs. discriminate Hs.
  - exists req. split; [exact Hs|].
    assert (E : key = js "key-1").
    { change (nonEmpty (GHL_API_KEY RequestFixture.host))
        with (Some (js "key-1")) in Hk.
      injection Hk as Hk. symmetry. exact Hk. }
    rewrite E in Ha. exact Ha.
Defined.

(** X3.  The verdicts of [validateCode] are [{valid: true}] without an
    error, or [valid: false] with one of four fixed reasons or with the
    window reason around a formatted time; so a verdict is valid exactly
    when it carries no error. *)
Theorem verdicts_are_a_fixed_set (host : Host) (code : jsstring)
    (st st' : State) (verdict : Verdict) :
  validateCode host code st = (Ok verdict, st') ->
  (verdict = granted
   \/ In verdict [invalidFormat; noAppointment; ambiguous; unreadableStart]
   \/ exists s,
        verdict = outsideWindow
                    (formatLocalTime s (parseTzOffsetMs (APPOINTMENT_TZ host))))
  /\ (valid verdict = true <-> error verdict = None).
Proof.
  intros H.
  assert (S : verdict = granted
   \/ In verdict [invalidFormat; noAppointment; ambiguous; unreadableStart]
   \/ exists s,
        verdict = outsideWindow
                    (formatLocalTime s (parseTzOffsetMs (APPOINTMENT_TZ host)))).
  { rewrite validateCode_cases in H.
    destruct (testCodeFormat code);
      [|injection H as <- _; right; left; left; reflexivity].
    destruct (fetchTodaysAppointments host st) as [[appointments|e] st1];
      [|discriminate H].
    destruct (findMatches appointments code) as [[|appt [|b rest]]|e];
      [ injection H as <- _; right; left; right; left; reflexivity
      | | injection H as <- _; right; left; right; right; left; reflexivity
      | discriminate H ].
    destruct (getProp appt (js "startTime")) as [startTime|e];
      [|discriminate H].
    destruct (resolveStart host startTime) as [[s|]|e];
      [ | injection H as <- _; right; left; right; right; right; left; reflexivity
      | discriminate H ].
    injection H as <- _. unfold windowVerdict.
    destruct (isWithinWindow s (clock host (ticks st1)));
      [left; reflexivity | right; right; eauto]. }
  split; [exact S|].
  destruct S as [-> | [Hin | [s ->]]].
  - split; reflexivity.
  - cbn [In] in Hin.
    destruct Hin as [<- | [<- | [<- | [<- | []]]]];
      split; intros E; discriminate E.
  - split; intros E; discriminate E.
Qed.

Lemma verdicts_are_a_fixed_set_witness :
  In (denied (js "No appointment found for today with this code."))
     [invalidFormat; noAppointment; ambiguous; unreadableStart].
Proof.
  destruct (verdicts_are_a_fixed_set RequestFixture.host (js "ab12") initial
              (snd (validateCode RequestFixture.host (js "ab12") initial))
              (denied (js "No appointment found for today with this code.")))
    as [[G | [Hin | [s Hs]]] _].
  - vm_compute. reflexivity.
  - discriminate G.
  - exact Hin.
  - exfalso. unfold outsideWindow, denied in Hs. injection Hs as Hs.
    vm_compute in Hs. discriminate Hs.
Defined.

(* ===================================================================== *)
(** ** Further properties of the entry point *)
(* ===================================================================== *)

Lemma handler_cases (host : Host) (event : Event) (st : State) :
  handler host event st =
  if str_eqb (httpMethod event) (js "OPTIONS")
  then (Ok (respond 204 EmptyBody), st)
  else if str_eqb (httpMethod event) (js "POST") then
    match readCode host event with
    | Throw _ => (Ok (badRequest (js "Invalid JSON body.")), st)
    | Ok code =>
      if isEmpty code
      then (Ok (badRequest (js "contactId is required.")), st)
      else answer (validateCode host code st)
    end
  else (Ok (respond 405 (JsonBody (denied (js "Method not allowed.")))), st).
Proof.
  destruct (str_eqb (httpMethod event) (js "POST")) eqn:P.
  - apply str_eqb_eq in P. rewrite (handler_post host event st P), P.
    reflexivity.
  - unfold handler. rewrite P.
    destruct (str_eqb (httpMethod event) (js "OPTIONS")); reflexivity.
Qed.

(** X4.  The handler never throws: whatever the event and the host, it
    returns a response; the response carries the CORS headers and one of the
    statuses 200, 204, 400, 405, 500; it is 204, with an empty body, exactly
    for the method OPTIONS, and 405 exactly for a method that is neither
    OPTIONS nor POST. *)
Theorem handler_always_answers (host : Host) (event : Event) (st : State) :
  exists resp st',
    handler host event st = (Ok resp, st')
    /\ headers resp = CORS_HEADERS
    /\ In (statusCode resp) [200; 204; 400; 405; 500]
    /\ (responseBody resp = EmptyBody <-> statusCode resp = 204)
    /\ (statusCode resp = 204 <-> httpMethod event = js "OPTIONS")
    /\ (statusCode resp = 405 <->
        httpMethod event <> js "OPTIONS" /\ httpMethod event <> js "POST").
Proof.
  rewrite handler_cases.
  destruct (str_eqb (httpMethod event) (js "OPTIONS")) eqn:O.
  { apply str_eqb_eq in O. eexists _, _. split; [reflexivity|].
    cbn [respond statusCode headers responseBody].
    split; [reflexivity|]. split; [right; left; reflexivity|].
    split; [split; reflexivity|]. split; [split; [intros _; exact O | reflexivity]|].
    split; [discriminate | intros [N _]; contradiction]. }
  assert (NO : httpMethod event <> js "OPTIONS").
  { intros E. apply str_eqb_eq in E. rewrite E in O. discriminate O. }
  destruct (str_eqb (httpMethod event) (js "POST")) eqn:P.
  2:{ assert (NP : httpMethod event <> js "POST").
      { intros E. apply str_eqb_eq in E. rewrite E in P. discriminate P. }
      eexists _, _. split; [reflexivity|].
      cbn [respond statusCode headers responseBody].
      split; [reflexivity|]. split; [right; right; right; left; reflexivity|].
      split; [split; discriminate|].
      split; [split; [discriminate | intros E; contradiction]|].
      split; [intros _; split; assumption | reflexivity]. }
  apply str_eqb_eq in P.
  assert (Fin : forall (resp : HttpResponse) (st' : State),
            headers resp = CORS_HEADERS ->
            responseBody resp <> EmptyBody ->
            statusCode resp = 200 \/ statusCode resp = 400
            \/ statusCode resp = 500 ->
            exists (resp0 : HttpResponse) (st0 : State),
              (Ok resp, st') = (Ok resp0, st0)
              /\ headers resp0 = CORS_HEADERS
              /\ In (statusCode resp0) [200; 204; 400; 405; 500]
              /\ (responseBody resp0 = EmptyBody <-> statusCode resp0 = 204)
              /\ (statusCode resp0 = 204 <-> httpMethod event = js "OPTIONS")
              /\ (statusCode resp0 = 405 <->
                  httpMethod event <> js "OPTIONS"
                  /\ httpMethod event <> js "POST")).
  { intros resp st' Hh Hb Hs. exists resp, st'. split; [reflexivity|].
    split; [exact Hh|]. split; [cbn [In]; lia|].
    split; [split; [intros E; contradiction | intros E; lia]|].
    split; [split; [intros E; lia | intros E; contradiction]|].
    split; [intros E; lia | intros [_ N]; contradiction]. }
  destruct (readCode host event) as [code|e];
    [|apply Fin; [reflexivity | discriminate | right; left; reflexivity]].
  destruct (isEmpty code);
    [apply Fin; [reflexivity | discriminate | right; left; reflexivity]|].
  destruct (validateCode host code st) as [[v|e] st']; cbn [answer];
    apply Fin; try reflexivity; try discriminate;
    [left; reflexivity | right; right; reflexivity].
Qed.

(** X5.  The log grows exactly with the 500 responses: a 500 response comes
    from a run of [validateCode] that threw, and the error thrown is the one
    entry added to the log; every other response leaves the log as it
    was. *)
Theorem errors_are_logged_iff_500 (host : Host) (event : Event)
    (st st' : State) (resp : HttpResponse) :
  handler host event st = (Ok resp, st') ->
  (statusCode resp = 500 /\
   exists code e st1,
     readCode host event = Ok code
     /\ validateCode host code st = (Throw e, st1)
     /\ logged st' = e :: logged st)
  \/ (statusCode resp <> 500 /\ logged st' = logged st).
Proof.
  rewrite handler_cases.
  destruct (str_eqb (httpMethod event) (js "OPTIONS")).
  { intros H. injection H as <- <-. right. split; [discriminate | reflexivity]. }
  destruct (str_eqb (httpMethod event) (js "POST")).
  2:{ intros H. injection H as <- <-. right. split; [discriminate | reflexivity]. }
  destruct (readCode host event) as [code|e].
  2:{ intros H. injection H as <- <-. right. split; [discriminate | reflexivity]. }
  destruct (isEmpty code).
  { intros H. injection H as <- <-. right. split; [discriminate | reflexivity]. }
  destruct (validateCode host code st) as [[v|e] st1] eqn:V; cbn [answer];
    intros H; injection H as <- <-.
  - right. split; [discriminate|].
    apply validateCode_keeps_log in V. exact V.
  - left. split; [reflexivity|]. exists code, e, st1.
    split; [reflexivity|]. split; [exact V|].
    apply validateCode_keeps_log in V. cbn [logError logged].
    rewrite V. reflexivity.
Qed.

Lemma errors_are_logged_iff_500_witness :
  logged (snd (handler FailureFixture.host FailureFixture.event initial))
  = [upstreamError FailureFixture.refusal].
Proof.
  destruct (errors_are_logged_iff_500 FailureFixture.host FailureFixture.event
              initial
              (snd (handler FailureFixture.host FailureFixture.event initial))
              internalError)
    as [(_ & code & e & st1 & Hr & Hv & Hl) | [Hne _]].
  - vm_compute. reflexivity.
  - assert (Ec : code = Fixture.code1).
    { assert (F : readCode FailureFixture.host FailureFixture.event
                  = Ok Fixture.code1) by (vm_compute; reflexivity).
      rewrite Hr in F. injection F as F. exact F. }
    rewrite Ec in Hv.
    assert (Ee : e = upstreamError FailureFixture.refusal).
    { assert (F : fst (validateCode FailureFixture.host Fixture.code1 initial)
                  = Throw (upstreamError FailureFixture.refusal))
        by (vm_compute; reflexivity).
      rewrite Hv in F. injection F as F. exact F. }
    rewrite Hl, Ee. reflexivity.
  - exfalso. apply Hne. reflexivity.
Defined.



(** X7.  The primary field shadows the secondary one.  A [contactId] that
    is a non-empty string of white space is the candidate, so the request is
    refused as lacking a code; a [contactId] that is truthy but not a string
    has no [trim], and the request is refused as invalid JSON.  Neither
    looks at [code], and neither reaches the lookup. *)
Theorem primary_field_shadows_secondary (host : Host) (event : Event)
    (st : State) (parsed primary : JsVal) :
  httpMethod event = js "POST" ->
  JSON_parse host (str_or (body event) (js "{}")) = Some parsed ->
  getProp parsed (js "contactId") = Ok primary ->
  truthy primary = true ->
  match primary with
  | JStr s =>
    trim s = [] ->
    handler host event st = (Ok (badRequest (js "contactId is required.")), st)
  | _ =>
    handler host event st = (Ok (badRequest (js "Invalid JSON body.")), st)
  end.
Proof.
  intros Hm Hj Hp Ht. rewrite (handler_post host event st Hm).
  unfold readCode. rewrite Hj, Hp, Ht.
  destruct primary; try reflexivity.
  intros ->. reflexivity.
Qed.

Lemma primary_field_shadows_secondary_witness :
  handler BodyFixture.host (BodyFixture.post BodyFixture.blankPrimaryText) initial
  = (Ok (badRequest (js "contactId is required.")), initial)
  /\ handler BodyFixture.host (BodyFixture.post BodyFixture.numericPrimaryText)
       initial
     = (Ok (badRequest (js "Invalid JSON body.")), initial).
Proof.
  split.
  - apply (primary_field_shadows_secondary BodyFixture.host
             (BodyFixture.post BodyFixture.blankPrimaryText) initial
             BodyFixture.blankPrimaryData (JStr (js "   ")));
      reflexivity.
  - apply (primary_field_shadows_secondary BodyFixture.host
             (BodyFixture.post BodyFixture.numericPrimaryText) initial
             BodyFixture.numericPrimaryData (JNum 1234));
      reflexivity.
Defined.

(* ===================================================================== *)
(** ** Further properties of the match step and of the lookup *)
(* ===================================================================== *)

Lemma matchesCode_nullish (code : jsstring) (v : JsVal) :
  nullish v -> matchesCode code v = Throw TypeError.
Proof. intros [-> | ->]; reflexivity. Qed.

Lemma matchesCode_not_nullish (code : jsstring) (v : JsVal) :
  ~ nullish v ->
  exists keep,
    matchesCode code v = Ok keep
    /\ (keep = true ->
        exists props prefix,
          v = JObj props
          /\ lookupProp props (js "contactId") = JStr (prefix ++ code)).
Proof.
  intros Hn. unfold nullish in Hn.
  destruct v as [| |b|z|s|l|props];
    try (exfalso; apply Hn; auto; fail);
    try (exists false; split; [reflexivity | discriminate]).
  unfold matchesCode. cbn [getProp].
  destruct (lookupProp props (js "contactId")) as [| |b|z|s|l|p] eqn:E;
    try (exists false; split; [reflexivity | discriminate]).
  exists (endsWith s code). split; [reflexivity|].
  intros H. apply endsWith_spec in H as [prefix ->]. eauto.
Qed.

Lemma Array_filter_nullish (code : jsstring) (elems : list JsVal) :
  Exists nullish elems ->
  Array_filter (matchesCode code) elems = Throw TypeError.
Proof.
  induction elems as [|x elems IH]; intros H; [inversion H|].
  cbn [Array_filter].
  destruct (matchesCode code x) as [keep|e] eqn:M.
  - inversion H as [? ? Hx | ? ? Hr]; subst.
    + rewrite (matchesCode_nullish code x Hx) in M. discriminate M.
    + rewrite (IH Hr). reflexivity.
  - unfold matchesCode in M.
    destruct x as [| |b|z|s|l|props]; cbn [getProp] in M;
      try discriminate M; try (injection M as <-; reflexivity).
    destruct (lookupProp props (js "contactId")); discriminate M.
Qed.

(** X8.  The match step fails exactly on an array that holds [null] (or
    [undefined]): one such element makes the whole step throw a [TypeError],
    wherever it stands and whatever else matches; without one the step
    returns, every other element that is not an object is passed over, and
    each match is an object of the array whose [contactId] is a string
    ending with the code. *)
Theorem match_step_fails_exactly_on_null (code : jsstring) (elems : list JsVal) :
  (Exists nullish elems -> findMatches (JArr elems) code = Throw TypeError)
  /\ (Forall (fun v => ~ nullish v) elems ->
      exists matches,
        findMatches (JArr elems) code = Ok matches
        /\ forall a, In a matches ->
             In a elems
             /\ exists props prefix,
                  a = JObj props
                  /\ lookupProp props (js "contactId") = JStr (prefix ++ code)).
Proof.
  split; [apply Array_filter_nullish|].
  cbn [findMatches]. induction elems as [|x elems IH]; intros H.
  - exists []. split; [reflexivity | intros a []].
  - inversion H as [|? ? Hx Hr]; subst.
    destruct (IH Hr) as (matches & Hm & Hin).
    destruct (matchesCode_not_nullish code x Hx) as (keep & M & Hk).
    cbn [Array_filter]. rewrite M, Hm.
    exists (if keep then x :: matches else matches). split; [reflexivity|].
    intros a Ha. destruct keep.
    + destruct Ha as [<- | Ha].
      * split; [left; reflexivity | apply Hk; reflexivity].
      * destruct (Hin a Ha) as [Hi Hp]. split; [right; exact Hi | exact Hp].
    + destruct (Hin a Ha) as [Hi Hp]. split; [right; exact Hi | exact Hp].
Qed.

Lemma match_step_fails_exactly_on_null_witness :
  findMatches
    (JArr [ JObj (Fixture.record Fixture.contactId1 (JStr Fixture.start1));
            JNull ]) Fixture.code1
  = Throw TypeError
  /\ exists matches,
       findMatches
         (JArr [ JNum 7; JStr Fixture.contactId1;
                 JObj (Fixture.record Fixture.contactId1 (JStr Fixture.start1)) ])
         Fixture.code1
       = Ok matches.
Proof.
  split.
  - apply (proj1 (match_step_fails_exactly_on_null Fixture.code1 _)).
    apply Exists_cons_tl. apply Exists_cons_hd. left. reflexivity.
  - destruct (proj2 (match_step_fails_exactly_on_null Fixture.code1
                       [ JNum 7; JStr Fixture.contactId1;
                         JObj (Fixture.record Fixture.contactId1
                                 (JStr Fixture.start1)) ]))
      as (matches & Hm & _).
    + repeat (apply Forall_cons;
              [intros [N | N]; discriminate N|]).
      apply Forall_nil.
    + exists matches. exact Hm.
Defined.

(** X9.  Once the request is sent, every answer the lookup cannot use ends
    in the generic 500 response with the error logged: a [fetch] that
    rejects, a 2xx body that does not parse, a body that is [null], an
    [appointments] property that is neither absent, [null] nor an array, and
    an array that holds [null]. *)
Theorem unusable_answers_are_internal_errors (host : Host) (event : Event)
    (code locationId apiKey : jsstring) (st : State) :
  httpMethod event = js "POST" ->
  readCode host event = Ok code ->
  wellFormedCode code ->
  nonEmpty (GHL_LOCATION_ID host) = Some locationId ->
  nonEmpty (GHL_API_KEY host) = Some apiKey ->
  let req := lookupRequest host locationId apiKey (clock host (ticks st)) in
  let crash := fun e =>
    handler host event st = (Ok internalError, logError e (afterRequest st req)) in
  match upstream host req with
  | None => crash FetchError
  | Some resp =>
    response_ok resp = true ->
    match JSON_parse host (bodyText resp) with
    | None => crash SyntaxError
    | Some data =>
      match getProp data (js "appointments") with
      | Throw _ => crash TypeError
      | Ok (JArr elems) => Exists nullish elems -> crash TypeError
      | Ok JUndefined | Ok JNull => True
      | Ok _ => crash TypeError
      end
    end
  end.
Proof.
  intros Hm Hr Hc Hl Hk req crash. subst crash. cbv beta.
  rewrite (handler_post host event st Hm), Hr,
    (wellFormedCode_nonempty code Hc), validateCode_cases,
    (proj2 (testCodeFormat_spec code) Hc),
    (lookup_configured host st locationId apiKey Hl Hk).
  cbv zeta. fold req.
  destruct (upstream host req) as [resp|]; [|reflexivity].
  intros Hok. rewrite Hok.
  destruct (JSON_parse host (bodyText resp)) as [data|]; [|reflexivity].
  destruct (getProp data (js "appointments")) as [v|e] eqn:G.
  - destruct v as [| |b|z|s|elems|props]; try exact I; try reflexivity.
    intros Hn. cbn [js_nullish findMatches].
    rewrite (Array_filter_nullish code elems Hn). reflexivity.
  - destruct data; try discriminate G; cbn in G; injection G as <-; reflexivity.
Qed.

Lemma unusable_answers_are_internal_errors_witness :
  fst (handler (BodyFixture.hostWith (Fixture.ok200 BodyFixture.stringListText))
         (BodyFixture.post Fixture.bodyText1) initial)
  = Ok internalError.
Proof.
  assert (Hr : readCode
                 (BodyFixture.hostWith (Fixture.ok200 BodyFixture.stringListText))
                 (BodyFixture.post Fixture.bodyText1) = Ok Fixture.code1)
    by (vm_compute; reflexivity).
  assert (Hc : wellFormedCode Fixture.code1)
    by (apply testCodeFormat_spec; vm_compute; reflexivity).
  pose proof (unusable_answers_are_internal_errors
                (BodyFixture.hostWith (Fixture.ok200 BodyFixture.stringListText))
                (BodyFixture.post Fixture.bodyText1)
                Fixture.code1 (js "loc-1") (js "key-1") initial
                eq_refl Hr Hc eq_refl eq_refl) as H.
  vm_compute in H. exact (f_equal fst (H eq_refl)).
Defined.

(* ===================================================================== *)
(** ** Further properties of the time helpers *)
(* ===================================================================== *)

Lemma parseInt_two_digits (a b : Z) :
  isDigit a = true -> isDigit b = true -> 0 <= parseInt [a; b] <= 99.
Proof.
  unfold isDigit, parseInt, digitVal. cbn [fold_left]. lia.
Qed.

(** X10.  The offset is a whole number of minutes, at most 99 hours and 99
    minutes in magnitude; that bound is reached, because the two fields are
    not checked against 23 and 59; and a leading minus sign negates the
    offset of the same string with a plus sign. *)
Theorem offset_is_bounded_not_validated :
  (forall tzStr,
     Z.abs (parseTzOffsetMs tzStr) <= 362340000
     /\ parseTzOffsetMs tzStr mod msPerMinute = 0)
  /\ parseTzOffsetMs (Some (js "+99:99")) = 362340000
  /\ (forall rest,
        parseTzOffsetMs (Some (45 :: rest)) = - parseTzOffsetMs (Some (43 :: rest))).
Proof.
  split; [|split; [reflexivity|]].
  - intros tzStr. unfold parseTzOffsetMs.
    destruct (str_or tzStr (js "+00:00"))
      as [|sg [|h1 [|h2 [|colon [|m1 [|m2 [|x r]]]]]]];
      try (split; [cbn [Z.abs]; lia | reflexivity]).
    destruct (((sg =? 43) || (sg =? 45)) && isDigit h1 && isDigit h2
              && (colon =? 58) && isDigit m1 && isDigit m2) eqn:T;
      [|split; [cbn [Z.abs]; lia | reflexivity]].
    repeat (apply andb_true_iff in T as [T ?]).
    pose proof (parseInt_two_digits h1 h2 ltac:(assumption) ltac:(assumption)) as Hh.
    pose proof (parseInt_two_digits m1 m2 ltac:(assumption) ltac:(assumption)) as Hmi.
    set (hh := parseInt [h1; h2]) in *. set (mm := parseInt [m1; m2]) in *.
    split.
    + destruct (sg =? 43); lia.
    + unfold msPerMinute.
      replace ((if sg =? 43 then 1 else -1) * (hh * 60 + mm) * 60 * 1000)
        with ((if sg =? 43 then 1 else -1) * (hh * 60 + mm) * 60000) by lia.
      apply Z.mod_mul. lia.
  - intros rest. unfold parseTzOffsetMs, str_or, nonEmpty.
    destruct rest as [|h1 [|h2 [|colon [|m1 [|m2 [|x r]]]]]]; try reflexivity.
    cbn [Z.eqb Pos.eqb orb andb].
    destruct (isDigit h1 && isDigit h2 && (colon =? 58) && isDigit m1 && isDigit m2);
      [lia | reflexivity].
Qed.

(** X11.  An instant that the offset shifts outside the range of time
    values has no clock fields: [formatLocalTime] then writes
    ["12:NaN AM"], and the bounds of the day are both [NaN]. *)
Theorem out_of_range_instants_give_NaN (epochMs tzOffsetMs : Z) :
  maxTime < Z.abs (epochMs + tzOffsetMs) ->
  formatLocalTime epochMs tzOffsetMs = js "12:NaN AM"
  /\ todayBounds epochMs tzOffsetMs = (NaN, NaN).
Proof.
  intros H. unfold formatLocalTime, todayBounds, TimeClip.
  replace (Z.abs (epochMs + tzOffsetMs) <=? maxTime) with false
    by (symmetry; apply Z.leb_gt; exact H).
  split; reflexivity.
Qed.

Lemma out_of_range_instants_give_NaN_witness :
  formatLocalTime 10000000000000000 0 = js "12:NaN AM".
Proof.
  refine (proj1 (out_of_range_instants_give_NaN 10000000000000000 0 _)).
  reflexivity.
Defined.

Lemma clock_fields_of_minuteOfDay (t : Z) :
  HourFromTime t = minuteOfDay t / 60
  /\ MinFromTime t = minuteOfDay t mod 60.
Proof.
  unfold HourFromTime, MinFromTime, minuteOfDay, msPerHour, msPerMinute.
  replace 3600000 with (60000 * 60) by reflexivity.
  rewrite <- Z.div_div by lia.
  set (q := t / 60000). clearbody q.
  split; Z.div_mod_to_equations; lia.
Qed.

(** X12.  The time [formatLocalTime] writes depends on the minute of the
    local day only: two instants whose local times fall in the same minute
    of the day, on whatever dates and under whatever offsets, are written
    alike (seconds and milliseconds are dropped, not rounded). *)
Theorem local_time_depends_on_minute_of_day (e1 tz1 e2 tz2 : Z) :
  Z.abs (e1 + tz1) <= maxTime ->
  Z.abs (e2 + tz2) <= maxTime ->
  minuteOfDay (e1 + tz1) = minuteOfDay (e2 + tz2) ->
  formatLocalTime e1 tz1 = formatLocalTime e2 tz2.
Proof.
  intros H1 H2 Hm.
  rewrite (formatLocalTime_valid e1 tz1 H1), (formatLocalTime_valid e2 tz2 H2).
  destruct (clock_fields_of_minuteOfDay (e1 + tz1)) as [-> ->].
  destruct (clock_fields_of_minuteOfDay (e2 + tz2)) as [-> ->].
  rewrite Hm. reflexivity.
Qed.

Lemma local_time_depends_on_minute_of_day_witness :
  formatLocalTime 1704121200000 0 = formatLocalTime 1704225659999 (-18000000).
Proof.
  apply local_time_depends_on_minute_of_day.
  - vm_compute. discriminate.
  - vm_compute. discriminate.
  - vm_compute. reflexivity.
Defined.

(* ===================================================================== *)
(** ** The local test script *)
(* ===================================================================== *)

(** X13.  What [test-local.js] reports, on an engine whose [JSON.parse]
    reads back what its [JSON.stringify] wrote: it never ends in its
    "Unexpected error" branch; without an argument, or with one that is
    blank, it reports status 400 and "contactId is required."; with an
    argument that is not a four-character code once trimmed (a full contact
    identifier, as its usage line shows) it reports status 200 and the
    invalid-format reason; and it reports access granted only with
    status 200. *)
Theorem test_local_reports (host : Host) (stringify : JsVal -> jsstring)
    (argv2 : option jsstring) :
  let payload := JObj [ (js "contactId", JStr (TestLocal.argument argv2)) ] in
  stringify payload <> [] ->
  JSON_parse host (stringify payload) = Some payload ->
  TestLocal.run host stringify argv2 <> TestLocal.UnexpectedError
  /\ (trim (TestLocal.argument argv2) = [] ->
      TestLocal.run host stringify argv2
      = TestLocal.AccessDenied 400 (Some (js "contactId is required.")))
  /\ (trim (TestLocal.argument argv2) <> [] ->
      ~ wellFormedCode (trim (TestLocal.argument argv2)) ->
      TestLocal.run host stringify argv2
      = TestLocal.AccessDenied 200
          (Some (js "Invalid code format. Expected 4 alphanumeric characters.")))
  /\ (forall status,
        TestLocal.run host stringify argv2 = TestLocal.AccessGranted status ->
        status = 200).
Proof.
  intros payload Hne Hj.
  assert (Hr : readCode host (TestLocal.mockEvent stringify (TestLocal.argument argv2))
               = Ok (trim (TestLocal.argument argv2))).
  { unfold readCode, TestLocal.mockEvent. cbn [body].
    assert (Hs : str_or (Some (stringify payload)) (js "{}") = stringify payload).
    { unfold str_or, nonEmpty. fold payload.
      destruct (stringify payload); [contradiction | reflexivity]. }
    fold payload. rewrite Hs, Hj. subst payload. cbn [getProp lookupProp].
    change (str_eqb (js "contactId") (js "contactId")) with true. cbv iota.
    change (str_eqb (js "contactId") (js "code")) with false. cbv iota.
    cbn [lookupProp truthy js_or].
    destruct (TestLocal.argument argv2) as [|c r]; reflexivity. }
  assert (Hh : handler host (TestLocal.mockEvent stringify (TestLocal.argument argv2))
                 initial
               = if isEmpty (trim (TestLocal.argument argv2))
                 then (Ok (badRequest (js "contactId is required.")), initial)
                 else answer (validateCode host (trim (TestLocal.argument argv2))
                                initial)).
  { rewrite handler_post by reflexivity. rewrite Hr. reflexivity. }
  unfold TestLocal.run. rewrite Hh.
  set (code := trim (TestLocal.argument argv2)) in *. clearbody code.
  split; [|split; [|split]].
  - destruct code as [|c r]; cbn [isEmpty]; [discriminate|].
    destruct (validateCode host (c :: r) initial) as [[v|e] st']; cbn;
      [destruct (valid v)|]; discriminate.
  - intros ->. reflexivity.
  - intros Hc Hbad. destruct code as [|c r]; [contradiction|]. cbn [isEmpty].
    rewrite (format_guard host (c :: r) initial Hbad). reflexivity.
  - intros status. destruct code as [|c r]; cbn [isEmpty]; [discriminate|].
    destruct (validateCode host (c :: r) initial) as [[v|e] st']; cbn;
      [destruct (valid v)|]; intros E; try discriminate E.
    injection E as <-. reflexivity.
Qed.

Lemma test_local_reports_witness :
  TestLocal.run BodyFixture.host TestLocal.stringifyFixture
    (Some Fixture.contactId1)
  = TestLocal.AccessDenied 200
      (Some (js "Invalid code format. Expected 4 alphanumeric characters.")).
Proof.
  refine (proj1 (proj2 (proj2 (test_local_reports BodyFixture.host
            TestLocal.stringifyFixture (Some Fixture.contactId1) _ _))) _ _).
  - discriminate.
  - vm_compute. reflexivity.
  - discriminate.
  - intros W. apply testCodeFormat_spec in W. vm_compute in W. discriminate W.
Defined.

(* ===================================================================== *)
(** ** The calendar *)
(* ===================================================================== *)

Module CalendarFacts.

Import JsCalendar.

Lemma DayFromYear_succ (y : Z) :
  DayFromYear (y + 1) = DayFromYear y + (if isLeapYear y then 366 else 365).
Proof.
  unfold DayFromYear, isLeapYear.
  destruct (Z.eqb_spec (y mod 4) 0); destruct (Z.eqb_spec (y mod 100) 0);
    destruct (Z.eqb_spec (y mod 400) 0);
    cbn [andb orb negb]; Z.div_mod_to_equations; lia.
Qed.

Lemma DayFromYear_lt (y y' : Z) :
  y < y' -> DayFromYear y + 365 * (y' - y) <= DayFromYear y'.
Proof. intros H. unfold DayFromYear. Z.div_mod_to_equations. lia. Qed.

(** [YearFromDay] is the year of the day. *)
Lemma YearFromDay_spec (day : Z) :
  DayFromYear (YearFromDay day) <= day < DayFromYear (YearFromDay day + 1).
Proof.
  unfold YearFromDay.
  set (y := 1970 + 400 * day / 146097).
  assert (Hlo : DayFromYear (y - 1) <= day).
  { subst y. unfold DayFromYear. Z.div_mod_to_equations. lia. }
  assert (Hhi : day < DayFromYear (y + 2)).
  { subst y. unfold DayFromYear. Z.div_mod_to_equations. lia. }
  destruct (Z.ltb_spec day (DayFromYear y)).
  - replace (y - 1 + 1) with y by lia. lia.
  - destruct (Z.leb_spec (DayFromYear (y + 1)) day).
    + replace (y + 1 + 1) with (y + 2) by lia. lia.
    + lia.
Qed.

Lemma YearFromDay_unique (day y : Z) :
  DayFromYear y <= day < DayFromYear (y + 1) -> YearFromDay day = y.
Proof.
  intros H. pose proof (YearFromDay_spec day) as S.
  destruct (Z.lt_trichotomy (YearFromDay day) y) as [L | [E | G]]; [|exact E|].
  - destruct (Z.eq_dec (YearFromDay day + 1) y) as [<-|N]; [lia|].
    pose proof (DayFromYear_lt (YearFromDay day + 1) y ltac:(lia)). lia.
  - destruct (Z.eq_dec (y + 1) (YearFromDay day)) as [E|N]; [rewrite E in H; lia|].
    pose proof (DayFromYear_lt (y + 1) (YearFromDay day) ltac:(lia)). lia.
Qed.

Lemma daysBeforeMonth_table (y : Z) :
  let leap := if isLeapYear y then 1 else 0 in
  daysBeforeMonth y 1 = 0 /\ daysBeforeMonth y 2 = 31
  /\ daysBeforeMonth y 3 = 59 + leap /\ daysBeforeMonth y 4 = 90 + leap
  /\ daysBeforeMonth y 5 = 120 + leap /\ daysBeforeMonth y 6 = 151 + leap
  /\ daysBeforeMonth y 7 = 181 + leap /\ daysBeforeMonth y 8 = 212 + leap
  /\ daysBeforeMonth y 9 = 243 + leap /\ daysBeforeMonth y 10 = 273 + leap
  /\ daysBeforeMonth y 11 = 304 + leap /\ daysBeforeMonth y 12 = 334 + leap.
Proof.
  unfold daysBeforeMonth, daysInMonth.
  destruct (isLeapYear y); cbv; repeat split; reflexivity.
Qed.

Lemma month_cases (m : Z) :
  0 <= m <= 11 ->
  m = 0 \/ m = 1 \/ m = 2 \/ m = 3 \/ m = 4 \/ m = 5 \/ m = 6 \/ m = 7
  \/ m = 8 \/ m = 9 \/ m = 10 \/ m = 11.
Proof. lia. Qed.

Lemma MonthFromDay_range (day : Z) : 0 <= MonthFromDay day <= 11.
Proof.
  unfold MonthFromDay. cbv zeta.
  repeat match goal with
         | |- context [if ?c then _ else _] => destruct c
         end; lia.
Qed.

(** Round trip: the fields of a day make the day again, and another date of
    the same month is as many days away. *)
Lemma MakeDay_fields (day date : Z) :
  MakeDay_js (YearFromDay day) (MonthFromDay day) date
  = day + (date - DateFromDay day).
Proof.
  pose proof (YearFromDay_spec day) as S.
  rewrite DayFromYear_succ in S.
  pose proof (daysBeforeMonth_table (YearFromDay day)) as T. cbv zeta in T.
  destruct T as (T1 & T2 & T3 & T4 & T5 & T6 & T7 & T8 & T9 & T10 & T11 & T12).
  unfold MakeDay_js, DateFromDay, MonthFromDay, DayWithinYear, InLeapYear in *.
  cbv zeta.
  set (Y := YearFromDay day) in *. set (base := DayFromYear Y) in *.
  destruct (isLeapYear Y);
    repeat match goal with
           | |- context [if ?a <? ?b then _ else _] =>
             destruct (Z.ltb_spec a b)
           end;
    cbn [Z.div Z.modulo Z.div_eucl Z.pos_div_eucl Z.add Pos.add Pos.succ
         Z.leb Z.ltb Z.compare Pos.compare Pos.compare_cont Z.sub Z.opp
         Z.pos_sub Z.succ_double Z.pred_double Z.double Pos.pred_double
         fst snd Z.mul Pos.mul];
    rewrite ?Z.add_0_r;
    rewrite ?T1, ?T2, ?T3, ?T4, ?T5, ?T6, ?T7, ?T8, ?T9, ?T10, ?T11, ?T12;
    lia.
Qed.

Lemma thursdayOf_code (day : Z) :
  day + 4 - (if WeekDay day =? 0 then 7 else WeekDay day)
  = RotatingCode.thursdayOf day.
Proof.
  unfold WeekDay, RotatingCode.thursdayOf.
  destruct (Z.eqb_spec ((day + 4) mod 7) 0); Z.div_mod_to_equations; lia.
Qed.

Lemma ceilDiv_7 (k : Z) : ceilDiv (k + 1) 7 = k / 7 + 1.
Proof. unfold ceilDiv. Z.div_mod_to_equations. lia. Qed.

Lemma TimeClip_day (day : Z) :
  Z.abs day <= 100000000 ->
  TimeClip (Some (day * msPerDay)) = Some (day * msPerDay).
Proof.
  intros H. unfold TimeClip.
  replace (Z.abs (day * msPerDay) <=? maxTime) with true; [reflexivity|].
  symmetry. apply Z.leb_le. unfold msPerDay, maxTime. lia.
Qed.

End CalendarFacts.

(* ===================================================================== *)
(** ** The rotating weekly code *)
(* ===================================================================== *)

Module WeekFacts.

Import JsCalendar CalendarFacts RotatingCode.

Lemma dayNumber_eq (now : LocalNow) :
  validLocal now ->
  dayNumber now
  = DayFromYear (getFullYear now)
    + daysBeforeMonth (getFullYear now) (getMonth now + 1)
    + (getDate now - 1).
Proof.
  intros (_ & Hm & _). unfold dayNumber, MakeDay_js. cbv zeta.
  rewrite (Z.div_small (getMonth now) 12), (Z.mod_small (getMonth now) 12) by lia.
  rewrite Z.add_0_r. reflexivity.
Qed.

Lemma dayNumber_bounds (now : LocalNow) :
  validLocal now ->
  DayFromYear 101 <= dayNumber now <= 73000000.
Proof.
  intros V. rewrite (dayNumber_eq now V). destruct V as (Hy & Hm & Hd).
  pose proof (daysBeforeMonth_table (getFullYear now)) as T. cbv zeta in T.
  destruct T as (T1 & T2 & T3 & T4 & T5 & T6 & T7 & T8 & T9 & T10 & T11 & T12).
  assert (Hin : 28 <= daysInMonth (getFullYear now) (getMonth now + 1) <= 31).
  { unfold daysInMonth.
    destruct (getMonth now + 1) as [|[p|p|]|]; try lia;
      repeat (destruct p as [p|p|]; try lia);
      destruct (isLeapYear (getFullYear now)); lia. }
  assert (Hb : 0 <= daysBeforeMonth (getFullYear now) (getMonth now + 1) <= 335).
  { destruct (month_cases _ Hm)
      as [E|[E|[E|[E|[E|[E|[E|[E|[E|[E|[E|E]]]]]]]]]]];
      rewrite E; cbn [Z.add Pos.add Pos.succ];
      rewrite ?T1, ?T2, ?T3, ?T4, ?T5, ?T6, ?T7, ?T8, ?T9, ?T10, ?T11, ?T12;
      destruct (isLeapYear (getFullYear now)); lia. }
  assert (Hlo : DayFromYear 101 <= DayFromYear (getFullYear now)).
  { destruct (Z.eq_dec 101 (getFullYear now)) as [<-|N]; [lia|].
    pose proof (DayFromYear_lt 101 (getFullYear now) ltac:(lia)). lia. }
  assert (Hhi : DayFromYear (getFullYear now) <= 72400000).
  { unfold DayFromYear. Z.div_mod_to_equations. lia. }
  lia.
Qed.

Lemma thursdayOf_facts (day : Z) :
  WeekDay (thursdayOf day) = 4
  /\ day - 3 <= thursdayOf day <= day + 3
  /\ (thursdayOf day + 3) / 7 = (day + 3) / 7.
Proof.
  unfold WeekDay, thursdayOf. repeat split; Z.div_mod_to_equations; lia.
Qed.

Lemma isoWeek_range (day : Z) :
  1 <= isoWeek day <= 53
  /\ DayFromYear (YearFromDay (thursdayOf day)) + 7 * (isoWeek day - 1)
     <= thursdayOf day
     <= DayFromYear (YearFromDay (thursdayOf day)) + 7 * isoWeek day - 1.
Proof.
  unfold isoWeek.
  pose proof (YearFromDay_spec (thursdayOf day)) as S.
  rewrite DayFromYear_succ in S.
  set (T := thursdayOf day) in *. set (base := DayFromYear (YearFromDay T)) in *.
  destruct (isLeapYear (YearFromDay T)); Z.div_mod_to_equations; lia.
Qed.

Lemma getCurrentWeekNumber_eq (now : LocalNow) :
  validLocal now ->
  getCurrentWeekNumber now = Some (isoWeek (dayNumber now)).
Proof.
  intros V. pose proof (dayNumber_bounds now V) as HD.
  assert (H101 : DayFromYear 101 = -682638) by reflexivity.
  assert (H100 : DayFromYear 100 = -683003) by reflexivity.
  destruct V as (Hy & Hm & Hd).
  unfold getCurrentWeekNumber. cbv zeta.
  assert (E1 : TimeClip (Date_UTC (Some (getFullYear now)) (Some (getMonth now))
                                  (Some (getDate now)))
               = Some (dayNumber now * msPerDay)).
  { unfold Date_UTC, MakeFullYear.
    replace ((0 <=? getFullYear now) && (getFullYear now <=? 99)) with false
      by (symmetry; apply andb_false_iff; right; apply Z.leb_gt; lia).
    fold (dayNumber now).
    rewrite (TimeClip_day (dayNumber now)) by lia.
    apply TimeClip_day. lia. }
  rewrite E1. set (D := dayNumber now) in *.
  pose proof (thursdayOf_facts D) as (_ & HT & _).
  assert (E2 : setUTCDate (Some (D * msPerDay))
                 (num_sub (num_add (getUTCDate (Some (D * msPerDay))) (Some 4))
                          (num_or (getUTCDay (Some (D * msPerDay))) 7))
               = Some (thursdayOf D * msPerDay)).
  { assert (HW : 0 <= WeekDay D < 7)
      by (unfold WeekDay; apply Z.mod_pos_bound; lia).
    unfold getUTCDate, getUTCDay, option_map, num_or, Day.
    rewrite Z.div_mul by (unfold msPerDay; lia).
    rewrite <- (thursdayOf_code D).
    destruct (WeekDay D =? 0); cbn [num_add num_sub setUTCDate];
      unfold Day;
      rewrite Z.div_mul, Z.mod_mul by (unfold msPerDay; lia);
      rewrite MakeDay_fields, Z.add_0_r;
      match goal with
      | |- TimeClip (Some (?a * _)) = Some (?b * _) =>
        replace a with b by lia
      end;
      apply TimeClip_day; lia. }
  rewrite E2. set (T := thursdayOf D) in *.
  pose proof (YearFromDay_spec T) as S.
  assert (HY : 100 <= YearFromDay T).
  { destruct (Z.le_gt_cases 100 (YearFromDay T)) as [L|G]; [exact L|].
    exfalso.
    assert (DayFromYear (YearFromDay T + 1) <= DayFromYear 100).
    { destruct (Z.eq_dec (YearFromDay T + 1) 100) as [->|N]; [lia|].
      pose proof (DayFromYear_lt (YearFromDay T + 1) 100 ltac:(lia)). lia. }
    lia. }
  assert (E3 : TimeClip (Date_UTC (getUTCFullYear (Some (T * msPerDay)))
                                  (Some 0) (Some 1))
               = Some (DayFromYear (YearFromDay T) * msPerDay)).
  { unfold getUTCFullYear, option_map, Day.
    rewrite Z.div_mul by (unfold msPerDay; lia).
    unfold Date_UTC, MakeFullYear.
    replace ((0 <=? YearFromDay T) && (YearFromDay T <=? 99)) with false
      by (symmetry; apply andb_false_iff; right; apply Z.leb_gt; lia).
    assert (M : MakeDay_js (YearFromDay T) 0 1 = DayFromYear (YearFromDay T)).
    { change (MakeDay_js (YearFromDay T) 0 1)
        with (DayFromYear (YearFromDay T + 0)
              + daysBeforeMonth (YearFromDay T + 0) 1 + 0).
      rewrite !Z.add_0_r. reflexivity. }
    rewrite M.
    rewrite DayFromYear_succ in S.
    assert (B : Z.abs (DayFromYear (YearFromDay T)) <= 100000000)
      by (destruct (isLeapYear (YearFromDay T)); lia).
    rewrite (TimeClip_day _ B). apply TimeClip_day. exact B. }
  rewrite E3. f_equal.
  replace (T * msPerDay - DayFromYear (YearFromDay T) * msPerDay)
    with ((T - DayFromYear (YearFromDay T)) * msPerDay) by lia.
  rewrite Z.div_mul by (unfold msPerDay; lia).
  rewrite ceilDiv_7. reflexivity.
Qed.

(** Seven days on, the week is the next one, or the first of a new year
    after a 52nd or 53rd. *)
Lemma isoWeek_next (day : Z) :
  isoWeek (day + 7) = isoWeek day + 1
  \/ (isoWeek (day + 7) = 1 /\ 52 <= isoWeek day).
Proof.
  unfold isoWeek.
  assert (ET : thursdayOf (day + 7) = thursdayOf day + 7).
  { unfold thursdayOf. Z.div_mod_to_equations. lia. }
  rewrite ET. set (T := thursdayOf day).
  pose proof (YearFromDay_spec T) as S.
  set (Y := YearFromDay T) in *.
  pose proof (DayFromYear_succ Y) as S1.
  pose proof (DayFromYear_succ (Y + 1)) as S2.
  destruct (Z.lt_ge_cases (T + 7) (DayFromYear (Y + 1))) as [L|G].
  - left. rewrite (YearFromDay_unique (T + 7) Y) by lia.
    Z.div_mod_to_equations. lia.
  - right.
    rewrite (YearFromDay_unique (T + 7) (Y + 1)).
    + destruct (isLeapYear Y); Z.div_mod_to_equations; lia.
    + replace (Y + 1 + 1) with (Y + 2) by lia.
      replace (Y + 1 + 1) with (Y + 2) in S2 by lia.
      destruct (isLeapYear Y), (isLeapYear (Y + 1)); lia.
Qed.

Lemma isoWeek_same_week (day day' : Z) :
  (day + 3) / 7 = (day' + 3) / 7 -> isoWeek day = isoWeek day'.
Proof.
  intros H. unfold isoWeek.
  assert (E : thursdayOf day = thursdayOf day').
  { unfold thursdayOf. Z.div_mod_to_equations. lia. }
  rewrite E. reflexivity.
Qed.

End WeekFacts.

(** X14.  For a local date of the years 101 to 200000,
    [getCurrentWeekNumber] is the ISO 8601 week number: a number from 1 to
    53, the rank of the Thursday of the date's Monday-to-Sunday week among
    the Thursdays of that Thursday's calendar year. *)
Theorem week_number_is_iso_week (now : RotatingCode.LocalNow) :
  RotatingCode.validLocal now ->
  let day := RotatingCode.dayNumber now in
  let thursday := RotatingCode.thursdayOf day in
  let year := JsCalendar.YearFromDay thursday in
  exists w,
    RotatingCode.getCurrentWeekNumber now = Some w
    /\ 1 <= w <= 53
    /\ JsCalendar.WeekDay thursday = 4
    /\ day - 3 <= thursday <= day + 3
    /\ (thursday + 3) / 7 = (day + 3) / 7
    /\ DayFromYear year <= thursday < DayFromYear (year + 1)
    /\ DayFromYear year + 7 * (w - 1) <= thursday <= DayFromYear year + 7 * w - 1.
Proof.
  intros V day thursday year.
  exists (RotatingCode.isoWeek day).
  split; [apply WeekFacts.getCurrentWeekNumber_eq; exact V|].
  destruct (WeekFacts.isoWeek_range day) as [R1 R2].
  destruct (WeekFacts.thursdayOf_facts day) as (F1 & F2 & F3).
  split; [exact R1|]. split; [exact F1|]. split; [exact F2|].
  split; [exact F3|]. split; [apply CalendarFacts.YearFromDay_spec | exact R2].
Qed.

Lemma week_number_is_iso_week_witness :
  RotatingCode.getCurrentWeekNumber
    {| RotatingCode.getFullYear := 2024; RotatingCode.getMonth := 11;
       RotatingCode.getDate := 30 |}
  = Some 1.
Proof.
  destruct (week_number_is_iso_week
              {| RotatingCode.getFullYear := 2024; RotatingCode.getMonth := 11;
                 RotatingCode.getDate := 30 |})
    as (w & Hw & _).
  - unfold RotatingCode.validLocal. cbn. lia.
  - rewrite Hw. vm_compute in Hw. exact (eq_sym Hw).
Defined.

(** X15.  The week number changes on Mondays and only then: two dates of
    the same Monday-to-Sunday week have the same number, and seven days
    later the number is one more, or is 1 again after week 52 or 53; so it
    is never the same two weeks running. *)
Theorem week_number_rotates_on_mondays (now1 now2 : RotatingCode.LocalNow) :
  RotatingCode.validLocal now1 ->
  RotatingCode.validLocal now2 ->
  ((RotatingCode.dayNumber now1 + 3) / 7 = (RotatingCode.dayNumber now2 + 3) / 7 ->
   RotatingCode.getCurrentWeekNumber now1 = RotatingCode.getCurrentWeekNumber now2)
  /\ (RotatingCode.dayNumber now2 = RotatingCode.dayNumber now1 + 7 ->
      exists w1 w2,
        RotatingCode.getCurrentWeekNumber now1 = Some w1
        /\ RotatingCode.getCurrentWeekNumber now2 = Some w2
        /\ (w2 = w1 + 1 \/ (w2 = 1 /\ 52 <= w1))
        /\ w2 <> w1).
Proof.
  intros V1 V2.
  rewrite (WeekFacts.getCurrentWeekNumber_eq now1 V1),
    (WeekFacts.getCurrentWeekNumber_eq now2 V2).
  split.
  - intros H. f_equal. apply WeekFacts.isoWeek_same_week. exact H.
  - intros H. eexists _, _. split; [reflexivity|]. split; [reflexivity|].
    rewrite H.
    pose proof (WeekFacts.isoWeek_next (RotatingCode.dayNumber now1)) as N.
    split; [exact N | lia].
Qed.

Lemma week_number_rotates_on_mondays_witness :
  RotatingCode.getCurrentWeekNumber
    {| RotatingCode.getFullYear := 2024; RotatingCode.getMonth := 11;
       RotatingCode.getDate := 23 |}
  <> RotatingCode.getCurrentWeekNumber
       {| RotatingCode.getFullYear := 2024; RotatingCode.getMonth := 11;
          RotatingCode.getDate := 30 |}.
Proof.
  destruct (week_number_rotates_on_mondays
              {| RotatingCode.getFullYear := 2024; RotatingCode.getMonth := 11;
                 RotatingCode.getDate := 23 |}
              {| RotatingCode.getFullYear := 2024; RotatingCode.getMonth := 11;
                 RotatingCode.getDate := 30 |})
    as [_ H].
  - unfold RotatingCode.validLocal. cbn. lia.
  - unfold RotatingCode.validLocal. cbn. lia.
  - destruct H as (w1 & w2 & H1 & H2 & _ & Hne); [reflexivity|].
    rewrite H1, H2. intros E. injection E as E. apply Hne. symmetry. exact E.
Defined.

(* ===================================================================== *)
(** ** The weekly codes *)
(* ===================================================================== *)

Module CodeFacts.

Lemma Forall_trim (P : Z -> Prop) (s : jsstring) :
  Forall P s -> Forall P (trim s).
Proof.
  intros H. destruct (trim_spec s) as (pre & post & E & _).
  rewrite E in H. apply Forall_app in H as [_ H].
  apply Forall_app in H as [H _]. exact H.
Qed.

Lemma Set_has_In (set : list jsstring) (x : jsstring) :
  WeeklyCode.Set_has set x = true <-> In x set.
Proof.
  unfold WeeklyCode.Set_has. rewrite existsb_exists. split.
  - intros (y & Hy & E). apply str_eqb_eq in E. subst. exact Hy.
  - intros H. exists x. split; [exact H | apply str_eqb_refl].
Qed.

Lemma week_codes_differ :
  forallb (fun w1 =>
    forallb (fun w2 =>
      negb (str_eqb (js "WEEK" ++ Z_toString w1) (js "WEEK" ++ Z_toString w2))
      || (w1 =? w2)) (zrange 54)) (zrange 54) = true.
Proof. vm_compute. reflexivity. Qed.

Lemma week_code_injective (w1 w2 : Z) :
  0 <= w1 < 54 -> 0 <= w2 < 54 ->
  js "WEEK" ++ Z_toString w1 = js "WEEK" ++ Z_toString w2 -> w1 = w2.
Proof.
  intros H1 H2 E. pose proof week_codes_differ as T.
  rewrite forallb_forall in T. specialize (T w1 (in_zrange w1 54 H1)).
  rewrite forallb_forall in T. specialize (T w2 (in_zrange w2 54 H2)).
  rewrite E, str_eqb_refl in T. cbn [negb orb] in T.
  apply Z.eqb_eq. exact T.
Qed.

Lemma week_codes_not_master :
  forallb (fun w =>
    negb (WeeklyCode.Set_has RotatingCode.MASTER_CODES (js "WEEK" ++ Z_toString w)))
    (zrange 54) = true.
Proof. vm_compute. reflexivity. Qed.

End CodeFacts.

(** X16.  The fixed-code variant accepts an ASCII input exactly when,
    trimmed, it is [WEEK8] or one of the three master codes up to the case
    of its letters; every other non-empty ASCII input gets
    "Invalid access code.". *)
Theorem fixed_codes_ignore_case_and_space
    (toUpperCase : jsstring -> jsstring) (s : jsstring) :
  upperCaseOnAscii toUpperCase ->
  Forall isAscii s ->
  s <> [] ->
  (WeeklyCode.validateAccessCode toUpperCase (JStr s) = granted <->
   exists c,
     In c (WeeklyCode.CURRENT_WEEK_CODE :: WeeklyCode.MASTER_CODES)
     /\ sameIgnoringCase (trim s) c)
  /\ (WeeklyCode.validateAccessCode toUpperCase (JStr s) = granted
      \/ WeeklyCode.validateAccessCode toUpperCase (JStr s)
         = denied (js "Invalid access code.")).
Proof.
  intros Hup Ha Hne.
  unfold WeeklyCode.validateAccessCode.
  destruct s as [|c0 s0]; [contradiction|]. cbn [isEmpty].
  rewrite (Hup _ (CodeFacts.Forall_trim isAscii _ Ha)).
  set (n := map asciiUpper (trim (c0 :: s0))).
  assert (U : forall c,
             In c (WeeklyCode.CURRENT_WEEK_CODE :: WeeklyCode.MASTER_CODES) ->
             map asciiUpper c = c).
  { intros c Hc. cbn [In WeeklyCode.MASTER_CODES] in Hc.
    destruct Hc as [<- | [<- | [<- | [<- | []]]]]; vm_compute; reflexivity. }
  destruct (str_eqb n WeeklyCode.CURRENT_WEEK_CODE
            || WeeklyCode.Set_has WeeklyCode.MASTER_CODES n) eqn:B.
  - split; [|left; reflexivity]. split; [|reflexivity]. intros _.
    apply orb_true_iff in B as [B | B].
    + apply str_eqb_eq in B. exists WeeklyCode.CURRENT_WEEK_CODE.
      split; [left; reflexivity|]. unfold sameIgnoringCase. fold n.
      rewrite B. symmetry. apply U. left. reflexivity.
    + apply CodeFacts.Set_has_In in B. exists n.
      split; [right; exact B|]. unfold sameIgnoringCase. fold n.
      symmetry. apply U. right. exact B.
  - split; [|right; reflexivity]. split; [intros E; discriminate E|].
    intros (c & Hc & Hs). exfalso.
    unfold sameIgnoringCase in Hs. fold n in Hs. rewrite (U c Hc) in Hs.
    apply orb_false_iff in B as [B1 B2].
    destruct Hc as [<- | Hc].
    + rewrite Hs, str_eqb_refl in B1. discriminate B1.
    + apply CodeFacts.Set_has_In in Hc. rewrite <- Hs in Hc.
      rewrite Hc in B2. discriminate B2.
Qed.

Lemma fixed_codes_ignore_case_and_space_witness :
  WeeklyCode.validateAccessCode (map asciiUpper) (JStr (js "  Master ")) = granted.
Proof.
  assert (A : Forall isAscii (js "  Master ")).
  { apply Forall_forall. intros x Hin. unfold isAscii. vm_compute in Hin.
    repeat (destruct Hin as [<- | Hin]; [lia|]). contradiction. }
  apply (proj1 (fixed_codes_ignore_case_and_space (map asciiUpper)
                  (js "  Master ") (fun s _ => eq_refl) A
                  ltac:(discriminate))).
  exists (js "MASTER"). split; [vm_compute; auto|]. vm_compute. reflexivity.
Defined.

Lemma denied_body_neq (a b : jsstring) :
  a <> b -> JsonBody (denied a) <> JsonBody (denied b).
Proof. intros N E. apply N. injection E as E. exact E. Qed.

Ltac strings_differ := intros E; vm_compute in E; discriminate E.

(** X17.  The handler of the fixed-code variant answers with status 200,
    204, 400 or 405 and never 500; a 200 response carries the verdict of
    [validateAccessCode] on the trimmed, non-empty code; and the verdict
    "Code is required." of [validateAccessCode] never leaves the handler,
    which has refused an empty code before (with "code is required."). *)
Theorem fixed_code_handler_never_asks_for_code
    (toUpperCase : jsstring -> jsstring)
    (JSON_parse : jsstring -> option JsVal) (event : Event) :
  let response := WeeklyCode.handler toUpperCase JSON_parse event in
  In (statusCode response) [200; 204; 400; 405]
  /\ headers response = CORS_HEADERS
  /\ responseBody response <> JsonBody (denied (js "Code is required."))
  /\ (statusCode response = 200 ->
      exists code,
        WeeklyCode.readCode JSON_parse event = Ok code
        /\ code <> []
        /\ responseBody response
           = JsonBody (WeeklyCode.validateAccessCode toUpperCase (JStr code))).
Proof.
  unfold WeeklyCode.handler.
  destruct (str_eqb (httpMethod event) (js "OPTIONS")).
  { cbn [respond statusCode headers responseBody]. cbv zeta.
    split; [right; left; reflexivity|]. split; [reflexivity|].
    split; [discriminate | discriminate]. }
  destruct (str_eqb (httpMethod event) (js "POST")); cbn [negb].
  2:{ cbn [respond statusCode headers responseBody]. cbv zeta.
      split; [right; right; right; left; reflexivity|]. split; [reflexivity|].
      split; [apply denied_body_neq; strings_differ | discriminate]. }
  destruct (WeeklyCode.readCode JSON_parse event) as [code|e].
  2:{ cbn [respond statusCode headers responseBody]. cbv zeta.
      split; [right; right; left; reflexivity|]. split; [reflexivity|].
      split; [apply denied_body_neq; strings_differ | discriminate]. }
  destruct code as [|c code]; cbn [isEmpty].
  { cbn [respond statusCode headers responseBody]. cbv zeta.
    split; [right; right; left; reflexivity|]. split; [reflexivity|].
    split; [apply denied_body_neq; strings_differ | discriminate]. }
  cbn [respond statusCode headers responseBody]. cbv zeta.
  split; [left; reflexivity|]. split; [reflexivity|]. split.
  - unfold WeeklyCode.validateAccessCode. cbn [isEmpty].
    destruct (str_eqb _ _ || _);
      [intros E; discriminate E | apply denied_body_neq; strings_differ].
  - intros _. exists (c :: code).
    split; [reflexivity|]. split; [discriminate | reflexivity].
Qed.

(** X18.  In the rotating variant an ASCII input is accepted exactly when,
    trimmed and in upper case, it is [WEEK] followed by the current week
    number or is a master code; and a weekly code that is accepted today is
    refused seven days later. *)
Theorem weekly_code_expires (toUpperCase : jsstring -> jsstring)
    (now1 now2 : RotatingCode.LocalNow) (s : jsstring) :
  upperCaseOnAscii toUpperCase ->
  Forall isAscii s ->
  s <> [] ->
  RotatingCode.validLocal now1 ->
  RotatingCode.validLocal now2 ->
  RotatingCode.dayNumber now2 = RotatingCode.dayNumber now1 + 7 ->
  let normalized := map asciiUpper (trim s) in
  (RotatingCode.validateAccessCode toUpperCase now1 (JStr s) = granted <->
   (exists w,
      RotatingCode.getCurrentWeekNumber now1 = Some w
      /\ normalized = js "WEEK" ++ Z_toString w)
   \/ In normalized RotatingCode.MASTER_CODES)
  /\ (RotatingCode.validateAccessCode toUpperCase now1 (JStr s) = granted ->
      ~ In normalized RotatingCode.MASTER_CODES ->
      RotatingCode.validateAccessCode toUpperCase now2 (JStr s)
      = denied (js "Invalid access code.")).
Proof.
  intros Hup Ha Hne V1 V2 Hd normalized.
  assert (Acc : forall now,
            RotatingCode.validLocal now ->
            RotatingCode.validateAccessCode toUpperCase now (JStr s)
            = if str_eqb normalized
                   (js "WEEK" ++ Z_toString
                      (RotatingCode.isoWeek (RotatingCode.dayNumber now)))
                 || WeeklyCode.Set_has RotatingCode.MASTER_CODES normalized
              then granted else denied (js "Invalid access code.")).
  { intros now V. unfold RotatingCode.validateAccessCode.
    destruct s as [|c0 s0]; [contradiction|]. cbn [isEmpty].
    rewrite (Hup _ (CodeFacts.Forall_trim isAscii _ Ha)).
    rewrite (WeekFacts.getCurrentWeekNumber_eq now V). reflexivity. }
  rewrite (Acc now1 V1), (Acc now2 V2).
  rewrite (WeekFacts.getCurrentWeekNumber_eq now1 V1).
  set (w1 := RotatingCode.isoWeek (RotatingCode.dayNumber now1)).
  set (w2 := RotatingCode.isoWeek (RotatingCode.dayNumber now2)).
  destruct (WeekFacts.isoWeek_range (RotatingCode.dayNumber now1)) as [R1 _].
  destruct (WeekFacts.isoWeek_range (RotatingCode.dayNumber now2)) as [R2 _].
  fold w1 in R1. fold w2 in R2.
  assert (Hw : w2 <> w1).
  { subst w1 w2. rewrite Hd.
    pose proof (WeekFacts.isoWeek_next (RotatingCode.dayNumber now1)). lia. }
  split.
  - destruct (str_eqb normalized (js "WEEK" ++ Z_toString w1)) eqn:B1;
      cbn [orb].
    + apply str_eqb_eq in B1. split; [|reflexivity].
      intros _. left. exists w1. split; [reflexivity | exact B1].
    + destruct (WeeklyCode.Set_has RotatingCode.MASTER_CODES normalized) eqn:B2.
      * split; [|reflexivity]. intros _. right.
        apply CodeFacts.Set_has_In. exact B2.
      * split; [intros E; discriminate E|].
        intros [(w & Ew & En) | Hin]; exfalso.
        -- injection Ew as <-. rewrite En, str_eqb_refl in B1. discriminate B1.
        -- apply CodeFacts.Set_has_In in Hin. rewrite Hin in B2. discriminate B2.
  - intros G Hnm.
    assert (B2 : WeeklyCode.Set_has RotatingCode.MASTER_CODES normalized = false).
    { destruct (WeeklyCode.Set_has RotatingCode.MASTER_CODES normalized) eqn:B;
        [|reflexivity].
      exfalso. apply Hnm. apply CodeFacts.Set_has_In. exact B. }
    rewrite B2 in *. rewrite orb_false_r in *.
    destruct (str_eqb normalized (js "WEEK" ++ Z_toString w1)) eqn:B1;
      [|discriminate G].
    apply str_eqb_eq in B1.
    destruct (str_eqb normalized (js "WEEK" ++ Z_toString w2)) eqn:B3;
      [|reflexivity].
    apply str_eqb_eq in B3. exfalso. apply Hw.
    apply CodeFacts.week_code_injective; [lia | lia |].
    rewrite <- B1, <- B3. reflexivity.
Qed.

Lemma weekly_code_expires_witness :
  RotatingCode.validateAccessCode (map asciiUpper)
    {| RotatingCode.getFullYear := 2024; RotatingCode.getMonth := 11;
       RotatingCode.getDate := 30 |}
    (JStr (js " week52 "))
  = denied (js "Invalid access code.").
Proof.
  assert (A : Forall isAscii (js " week52 ")).
  { apply Forall_forall. intros x Hin. unfold isAscii. vm_compute in Hin.
    repeat (destruct Hin as [<- | Hin]; [lia|]). contradiction. }
  refine (proj2 (weekly_code_expires (map asciiUpper)
            {| RotatingCode.getFullYear := 2024; RotatingCode.getMonth := 11;
               RotatingCode.getDate := 23 |}
            {| RotatingCode.getFullYear := 2024; RotatingCode.getMonth := 11;
               RotatingCode.getDate := 30 |}
            (js " week52 ") (fun s _ => eq_refl) A _ _ _ _) _ _).
  - discriminate.
  - unfold RotatingCode.validLocal. cbn. lia.
  - unfold RotatingCode.validLocal. cbn. lia.
  - reflexivity.
  - vm_compute. reflexivity.
  - vm_compute. intros [E | [E | [E | []]]]; discriminate E.
Defined.

(* ===================================================================== *)
(** ** The diagnostic script *)
(* ===================================================================== *)

(** X19.  The day [debug-api.js] asks for is the UTC day: its bounds are
    those of the function's lookup under offset 0, and under another offset
    the two agree exactly when the offset is a whole number of days; with
    [APPOINTMENT_TZ] set to a real zone the script probes another window
    than the function fetches. *)
Theorem debug_script_probes_the_utc_day (now tz : Z) :
  Z.abs now <= maxTime - msPerDay ->
  Z.abs (now + tz) <= maxTime ->
  DebugApi.bounds now = todayBounds now 0
  /\ (todayBounds now tz = DebugApi.bounds now <-> tz mod msPerDay = 0).
Proof.
  intros Hn Ht.
  assert (Hn' : Z.abs (now + 0) <= maxTime)
    by (rewrite Z.add_0_r; unfold msPerDay, maxTime in *; lia).
  destruct (todayBounds_spec now 0 Hn') as [B0 _].
  destruct (todayBounds_spec now tz Ht) as [Bt _].
  assert (D : DebugApi.bounds now
              = (Some (Day now * msPerDay),
                 Some (Day now * msPerDay + 24 * msPerHour - 1))).
  { unfold DebugApi.bounds, DebugApi.setUTCHours_end, setUTCHours_0, TimeClip.
    replace (Z.abs now <=? maxTime) with true
      by (symmetry; apply Z.leb_le; unfold msPerDay, maxTime in *; lia).
    replace (Z.abs (Day now * msPerDay) <=? maxTime) with true
      by (symmetry; apply Z.leb_le; unfold Day, msPerDay, maxTime in *;
          Z.div_mod_to_equations; lia).
    replace (Z.abs (Day now * msPerDay + 86399999) <=? maxTime) with true
      by (symmetry; apply Z.leb_le; unfold Day, msPerDay, maxTime in *;
          Z.div_mod_to_equations; lia).
    unfold getTime. f_equal. f_equal. unfold msPerHour. lia. }
  rewrite D, B0, Bt. rewrite Z.add_0_r, Z.sub_0_r.
  split; [reflexivity|]. split.
  - intros E. injection E as E _. unfold Day, msPerDay in *.
    Z.div_mod_to_equations. lia.
  - intros M.
    assert (E : Day (now + tz) * msPerDay - tz = Day now * msPerDay).
    { unfold Day, msPerDay in *. Z.div_mod_to_equations. lia. }
    rewrite E. reflexivity.
Qed.

Lemma debug_script_probes_the_utc_day_witness :
  todayBounds 1704078000000 (-18000000) <> DebugApi.bounds 1704078000000.
Proof.
  intros E.
  apply (proj2 (debug_script_probes_the_utc_day 1704078000000 (-18000000)
                  ltac:(vm_compute; discriminate)
                  ltac:(vm_compute; discriminate))) in E.
  vm_compute in E. discriminate E.
Defined.
